(** * pcap2csv: a shallow embedding of [src/pcap2csv.py]

    The script walks the records of a capture file, pairs record number
    [n] with the [n]-th summary of a protocol summary provider and prints
    one row per pair into a text file.  The embedding follows the three
    functions of the script, [render_csv_row], [pcap2csv] and [main], and
    keeps the names of their locals.

    The packet library (the dissector behind [Ether(pkt_sc)]) and the two
    capture readers are not part of the script.  The dissector is a
    section variable of the development; the readers are represented by
    what they yield for a capture file. *)

From Stdlib Require Import NArith ZArith Ascii String DecimalString.
From Stdlib Require Import DecimalPos DecimalN.
From Stdlib.Strings Require Import Byte.
From stdpp Require Import gmap strings list fin_maps.

Local Open Scope string_scope.
Local Open Scope list_scope.

(** ** Python values used by the script *)

(** A [bytes] object. *)
Abbreviation bytes := (list byte).

(** The exceptions that can travel through the script.  [StopIteration]
    is what the provider's [next_packet] raises at the end of its
    sequence; [IndexError] is what a layer lookup [pkt[cls]] raises when
    the layer is absent; [KeyError] and [AttributeError] are a missing
    dictionary key and a missing attribute; [UnboundLocalError] is what
    reading a local that
    no executed branch assigned raises; [FileNotFoundError] and
    [CaptureFormatError] are a reader refusing a missing file and a file
    that is no capture. *)
Inductive exn :=
| StopIteration
| IndexError (layer : string)
| KeyError (key : string)
| AttributeError (name : string)
| UnboundLocalError (var : string)
| FileNotFoundError
| CaptureFormatError.

(** A computation that returns or raises. *)
Inductive result (A : Type) :=
| Ok (a : A)
| Raise (e : exn).
Arguments Ok {A} a.
Arguments Raise {A} e.

Definition rbind {A B} (m : result A) (k : A -> result B) : result B :=
  match m with
  | Ok a => k a
  | Raise e => Raise e
  end.

Notation "'let*' x ':=' m 'in' k" := (rbind m (fun x => k))
  (at level 10, x pattern, m at level 100, k at level 200).

(** ** [str(int)] and [bytes.hex()] *)

(** Decimal rendering of a non-negative integer, as [str.format] does
    for an [int] argument. *)
Definition str_N (n : N) : string := NilZero.string_of_uint (N.to_uint n).

(** One lowercase hexadecimal digit. *)
Definition hex_digit (n : N) : ascii :=
  match n with
  | 0 => "0" | 1 => "1" | 2 => "2" | 3 => "3" | 4 => "4" | 5 => "5"
  | 6 => "6" | 7 => "7" | 8 => "8" | 9 => "9" | 10 => "a" | 11 => "b"
  | 12 => "c" | 13 => "d" | 14 => "e" | _ => "f"
  end%N%char.

(** [bytes.hex()]: two lowercase digits per byte, high nibble first. *)
Fixpoint hex (bs : bytes) : string :=
  match bs with
  | [] => ""
  | b :: rest =>
      String (hex_digit (Byte.to_N b / 16))
        (String (hex_digit (Byte.to_N b mod 16)) (hex rest))
  end.

(** The value of a lowercase hexadecimal digit, for reading [hex] back. *)
Definition unhex_digit (c : ascii) : option N :=
  let n := N_of_ascii c in
  if ((48 <=? n) && (n <=? 57))%N then Some (n - 48)%N
  else if ((97 <=? n) && (n <=? 102))%N then Some (n - 87)%N
  else None.

Fixpoint unhex (s : string) : option bytes :=
  match s with
  | "" => Some []
  | String hi (String lo rest) =>
      match unhex_digit hi, unhex_digit lo, unhex rest with
      | Some h, Some l, Some bs =>
          match Byte.of_N (16 * h + l) with
          | Some b => Some (b :: bs)
          | None => None
          end
      | _, _, _ => None
      end
  | String _ "" => None
  end.

(** A character of the lowercase hexadecimal alphabet. *)
Definition is_lower_hex (c : ascii) : bool :=
  let n := N_of_ascii c in
  (((48 <=? n) && (n <=? 57)) || ((97 <=? n) && (n <=? 102)))%N.

Fixpoint string_forallb (p : ascii -> bool) (s : string) : bool :=
  match s with
  | "" => true
  | String c rest => p c && string_forallb p rest
  end.

(** ** [str.format] with positional fields *)

(** A format string cut into literal characters and replacement fields
    [{n}]. *)
Inductive fmt_token :=
| Lit (c : ascii)
| Field (n : nat).

Definition digit_of (c : ascii) : option nat :=
  let n := nat_of_ascii c in
  if (48 <=? n)%nat && (n <=? 57)%nat then Some (n - 48)%nat else None.

(** [parse_fmt s fld]: [fld] is [Some n] while inside a replacement field
    whose digits read so far give [n]. *)
Fixpoint parse_fmt (s : string) (fld : option nat) : list fmt_token :=
  match s with
  | "" => []
  | String c rest =>
      match fld with
      | None =>
          if Ascii.eqb c "{" then parse_fmt rest (Some 0%nat)
          else Lit c :: parse_fmt rest None
      | Some n =>
          if Ascii.eqb c "}" then Field n :: parse_fmt rest None
          else match digit_of c with
               | Some d => parse_fmt rest (Some (10 * n + d)%nat)
               | None => parse_fmt rest (Some n)
               end
      end
  end.

(** A replacement field beyond the arguments raises [IndexError]. *)
Fixpoint format_tokens (ts : list fmt_token) (args : list string)
  : result string :=
  match ts with
  | [] => Ok ""
  | Lit c :: rest =>
      let* s := format_tokens rest args in Ok (String c s)
  | Field n :: rest =>
      match args !! n with
      | Some a => let* s := format_tokens rest args in Ok (a +:+ s)
      | None => Raise (IndexError "Replacement index out of range")
      end
  end.

(** [fmt.format( *args )]. *)
Definition format (fmt : string) (args : list string) : result string :=
  format_tokens (parse_fmt fmt None) args.

(** ** Dissected packets

    A dissected packet is a chain of layers, outermost first.  Each
    header layer keeps the fields the script reads and the bytes it
    builds back to; a [Raw] layer is its load. *)

Inductive LayerClass := Ether_ | IP | UDP | TCP | Raw.

Global Instance LayerClass_eq_dec : EqDecision LayerClass.
Proof. solve_decision. Defined.

Inductive Layer :=
| LEther (hdr : bytes)
| LIP (proto : N) (hdr : bytes)
| LUDP (sport dport : N) (hdr : bytes)
| LTCP (sport dport : N) (hdr : bytes)
| LRaw (load : bytes).

Abbreviation Packet := (list Layer).

Definition layer_class (l : Layer) : LayerClass :=
  match l with
  | LEther _ => Ether_
  | LIP _ _ => IP
  | LUDP _ _ _ => UDP
  | LTCP _ _ _ => TCP
  | LRaw _ => Raw
  end.

Definition class_name (c : LayerClass) : string :=
  match c with
  | Ether_ => "Ether" | IP => "IP" | UDP => "UDP" | TCP => "TCP"
  | Raw => "Raw"
  end.

(** [pkt[cls]]: the packet from its first layer of class [cls] on;
    [IndexError] when there is none. *)
Fixpoint getlayer (cls : LayerClass) (pkt : Packet) : result Packet :=
  match pkt with
  | [] => Raise (IndexError (class_name cls))
  | l :: rest =>
      if decide (layer_class l = cls) then Ok (l :: rest)
      else getlayer cls rest
  end.

(** [pkt.payload]: what follows the first layer. *)
Definition payload (pkt : Packet) : Packet := tail pkt.

Definition layer_bytes (l : Layer) : bytes :=
  match l with
  | LEther hdr | LIP _ hdr | LUDP _ _ hdr | LTCP _ _ hdr => hdr
  | LRaw load => load
  end.

(** [bytes(pkt)]. *)
Definition build (pkt : Packet) : bytes := concat (layer_bytes <$> pkt).

(** [pkt.fields['proto']]: a key of the first layer's own fields. *)
Definition fields_proto (pkt : Packet) : result N :=
  match pkt with
  | LIP proto _ :: _ => Ok proto
  | _ => Raise (KeyError "proto")
  end.

(** [pkt.sport] and [pkt.dport]: an attribute is looked up in the first
    layer, then in the layers it carries. *)
Fixpoint attr_sport (pkt : Packet) : result N :=
  match pkt with
  | [] => Raise (AttributeError "sport")
  | LUDP s _ _ :: _ | LTCP s _ _ :: _ => Ok s
  | _ :: rest => attr_sport rest
  end.

Fixpoint attr_dport (pkt : Packet) : result N :=
  match pkt with
  | [] => Raise (AttributeError "dport")
  | LUDP _ d _ :: _ | LTCP _ d _ :: _ => Ok d
  | _ :: rest => attr_dport rest
  end.

(** ** Summaries

    The provider's per-packet object; the script reads these seven
    attributes, all of them text. *)
Module Summary.
Record t := mk {
  no : string;
  time : string;
  protocol : string;
  info : string;
  source : string;
  destination : string;
  length : string
}.
End Summary.

(** ** Files, the two readers and the process state *)

(** A capture file is represented by what its two readers yield from it:
    the raw records, in file order, and the summaries, in capture order.
    A text file is the list of its lines. *)
Inductive File :=
| Capture (records : list bytes) (summaries : list Summary.t)
| Text (lines : list string).

Record World := {
  fs : gmap string File;
  stdout : list string;
  stderr : list string
}.

(** Modelled from the spec: the raw capture reader of the packet library
    is not part of the script.  It yields the records of a capture in
    file order and refuses a file that is no capture. *)
Definition RawPcapReader (files : gmap string File) (path : string)
  : result (list bytes) :=
  match files !! path with
  | Some (Capture records _) => Ok records
  | Some (Text _) => Raise CaptureFormatError
  | None => Raise FileNotFoundError
  end.

(** Modelled from the spec: the summary provider is not part of the
    script.  [FileCapture] stands for lines 106 to 108: the provider is
    opened on the capture, loaded and reset, which leaves its cursor
    before the first summary. *)
Definition FileCapture (files : gmap string File) (path : string)
  : result (list Summary.t) :=
  match files !! path with
  | Some (Capture _ summaries) => Ok summaries
  | Some (Text _) => Raise CaptureFormatError
  | None => Raise FileNotFoundError
  end.

(** [pcap_pyshark.next_packet()]: the next summary and the advanced
    cursor, [StopIteration] at the end of the sequence. *)
Definition next_packet (cursor : list Summary.t)
  : result (Summary.t * list Summary.t) :=
  match cursor with
  | [] => Raise StopIteration
  | s :: rest => Ok (s, rest)
  end.

(** ** [render_csv_row] *)

(** The format of one line (line 62 of the script). *)
Definition fmt : string :=
  "{0}|{1}|{2}({3})|{4}|{5}:{6}|{7}:{8}|{9}|{10}".

(** The four locals the branches on [proto] assign.  A port that no
    branch assigned is [None]. *)
Record Locals := {
  l4_payload_bytes : bytes;
  l4_proto_name : string;
  l4_sport : option N;
  l4_dport : option N
}.

Definition read_local {A} (name : string) (v : option A) : result A :=
  match v with
  | Some a => Ok a
  | None => Raise (UnboundLocalError name)
  end.

Section Script.

(** The dissector [Ether(pkt_sc)] of the packet library. *)
Variable Ether : bytes -> Packet.

(** Lines 42 to 59: the locals after the branches. *)
Definition l4_locals (pkt_sc : bytes) : result Locals :=
  let* ip_pkt_sc := getlayer IP (Ether pkt_sc) in
  let* proto := fields_proto ip_pkt_sc in
  if (proto =? 17)%N then
    let* udp_pkt_sc := getlayer UDP ip_pkt_sc in
    let* sport := attr_sport udp_pkt_sc in
    let* dport := attr_dport udp_pkt_sc in
    Ok {| l4_payload_bytes := build (payload udp_pkt_sc);
          l4_proto_name := "UDP";
          l4_sport := Some sport;
          l4_dport := Some dport |}
  else if (proto =? 6)%N then
    let* tcp_pkt_sc := getlayer TCP ip_pkt_sc in
    let* sport := attr_sport tcp_pkt_sc in
    let* dport := attr_dport tcp_pkt_sc in
    Ok {| l4_payload_bytes := build (payload tcp_pkt_sc);
          l4_proto_name := "TCP";
          l4_sport := Some sport;
          l4_dport := Some dport |}
  else
    Ok {| l4_payload_bytes := [x00];
          l4_proto_name := "???";
          l4_sport := None;
          l4_dport := None |}.

(** Lines 76 to 87: the arguments of [fmt.format], evaluated left to
    right, then the line appended to the file. *)
Definition render_csv_row (pkt_sh : Summary.t) (pkt_sc : bytes)
    (fh_csv : list string) : result (list string) :=
  let* locals := l4_locals pkt_sc in
  let* sport := read_local "l4_sport" (l4_sport locals) in
  let* dport := read_local "l4_dport" (l4_dport locals) in
  let* line :=
    format fmt [Summary.no pkt_sh;
                Summary.time pkt_sh;
                Summary.protocol pkt_sh;
                l4_proto_name locals;
                Summary.info pkt_sh;
                Summary.source pkt_sh;
                str_N sport;
                Summary.destination pkt_sh;
                str_N dport;
                Summary.length pkt_sh;
                hex (l4_payload_bytes locals)] in
  Ok (fh_csv ++ [line]).

(** *** The loop of [pcap2csv]

    The state the loop threads: the counter, the provider's cursor
    (the summaries not yet handed out) and the lines written to the
    open file. *)
Record LoopState := {
  frame_num : nat;
  pcap_pyshark : list Summary.t;
  fh_csv : list string
}.

(** How a statement, a function or the process ends. *)
Inductive Outcome :=
| Returned
| Uncaught (e : exn)
| Exited (code : Z).

(** Lines 116 to 124.  Of each item of the raw reader the loop keeps
    the bytes, [pkt_scapy].  One iteration asks the provider for its next
    summary, counts, and renders; [except StopIteration: break] ends
    the loop quietly, any other exception leaves the loop. *)
Fixpoint for_loop (records : list bytes) (st : LoopState)
  : Outcome * LoopState :=
  match records with
  | [] => (Returned, st)
  | pkt_scapy :: rest =>
      match next_packet (pcap_pyshark st) with
      | Raise StopIteration => (Returned, st)
      | Raise e => (Uncaught e, st)
      | Ok (pkt_pyshark, cursor) =>
          let st1 := {| frame_num := S (frame_num st);
                        pcap_pyshark := cursor;
                        fh_csv := fh_csv st |} in
          match render_csv_row pkt_pyshark pkt_scapy (fh_csv st) with
          | Ok fh =>
              for_loop rest {| frame_num := S (frame_num st);
                               pcap_pyshark := cursor;
                               fh_csv := fh |}
          | Raise StopIteration => (Returned, st1)
          | Raise e => (Uncaught e, st1)
          end
      end
  end.

(** Line 126. *)
Definition packets_read (n : nat) : string :=
  str_N (N.of_nat n) +:+ " packets read".

(** [pcap2csv(in_pcap, out_csv)].  The summaries are loaded first; the
    output file is created (or emptied) by [open(out_csv, 'w')] before
    the raw reader opens the capture; the [with] block closes the file
    with the lines written so far however the loop ends; the count is
    printed only when the loop ends without an exception. *)
Definition pcap2csv (in_pcap out_csv : string) (w : World)
  : Outcome * World :=
  match FileCapture (fs w) in_pcap with
  | Raise e => (Uncaught e, w)
  | Ok summaries =>
      let fs1 := <[out_csv := Text []]> (fs w) in
      match RawPcapReader fs1 in_pcap with
      | Raise e =>
          (Uncaught e,
           {| fs := fs1; stdout := stdout w; stderr := stderr w |})
      | Ok records =>
          let '(o, st) :=
            for_loop records {| frame_num := 0;
                                pcap_pyshark := summaries;
                                fh_csv := [] |} in
          let fs2 := <[out_csv := Text (fh_csv st)]> fs1 in
          match o with
          | Returned =>
              (Returned,
               {| fs := fs2;
                  stdout := stdout w ++ [packets_read (frame_num st)];
                  stderr := stderr w |})
          | _ =>
              (o, {| fs := fs2; stdout := stdout w; stderr := stderr w |})
          end
      end
  end.

(** *** [main] *)

(** What [command_line_args] returns: both options are required. *)
Record Args := { pcap : string; csv : string }.

Definition os_path_exists (files : gmap string File) (path : string)
  : bool :=
  bool_decide (is_Some (files !! path)).

Definition dquote : string := String (ascii_of_nat 34) "".

Definition missing_input_message (path : string) : string :=
  "Input pcap file " +:+ dquote +:+ path +:+ dquote +:+ " does not exist".

Definition existing_output_message (path : string) : string :=
  "Output csv file " +:+ dquote +:+ path +:+ dquote
    +:+ " already exists, won't overwrite".

(** [sys.exit(-1)] after a message on the error stream. *)
Definition die (msg : string) (w : World) : Outcome * World :=
  (Exited (-1),
   {| fs := fs w; stdout := stdout w; stderr := stderr w ++ [msg] |}).

(** Lines 141 to 156. *)
Definition main (args : Args) (w : World) : Outcome * World :=
  if negb (os_path_exists (fs w) (pcap args)) then
    die (missing_input_message (pcap args)) w
  else if os_path_exists (fs w) (csv args) then
    die (existing_output_message (csv args)) w
  else pcap2csv (pcap args) (csv args) w.

(** The status the process ends with: 0 after a normal return, 1 after
    an uncaught exception, the low byte of the code after [sys.exit]. *)
Definition exit_status (o : Outcome) : Z :=
  match o with
  | Returned => 0
  | Uncaught _ => 1
  | Exited code => code mod 256
  end%Z.

End Script.

(** ** The header decoder

    The dissector of the packet library is not part of the script.  The
    one below follows the header decoder of the specification: a 14-byte
    Ethernet header whose last two bytes are the ethertype; for ethertype
    0x0800 an IPv4 header whose length is the header-length nibble
    counted in 32-bit words; for protocol 17 a fixed 8-byte UDP header,
    all following bytes being payload; for protocol 6 a TCP header whose
    length is its data-offset nibble counted in 32-bit words.  A header
    that does not fit the buffer is not decoded and its bytes stay a raw
    layer. *)

(** Modelled from the spec: the field readers of the absent dissector.
    One byte of the buffer, and two bytes in network byte order. *)
Definition u8 (bs : bytes) (i : nat) : N :=
  match bs !! i with
  | Some b => Byte.to_N b
  | None => 0%N
  end.

(** Modelled from the spec: a 16-bit field in network byte order. *)
Definition u16 (bs : bytes) (i : nat) : N :=
  (256 * u8 bs i + u8 bs (S i))%N.

(** Modelled from the spec: the transport decoder of the absent
    dissector.  UDP has a fixed header of 8 bytes; the TCP header ends
    where its own data-offset nibble says. *)
Definition dissect_transport (proto : N) (seg : bytes) : Packet :=
  if (proto =? 17)%N then
    if (8 <=? length seg)%nat then
      [LUDP (u16 seg 0) (u16 seg 2) (take 8 seg); LRaw (drop 8 seg)]
    else [LRaw seg]
  else if (proto =? 6)%N then
    let dataofs := N.to_nat (u8 seg 12 / 16) in
    if ((20 <=? length seg) && (5 <=? dataofs)
        && (4 * dataofs <=? length seg))%nat then
      [LTCP (u16 seg 0) (u16 seg 2) (take (4 * dataofs) seg);
       LRaw (drop (4 * dataofs) seg)]
    else [LRaw seg]
  else [LRaw seg].

(** Modelled from the spec: the network decoder of the absent
    dissector.  Only ethertype 0x0800 with version 4 is decoded; the
    transport segment starts where the header-length nibble says. *)
Definition dissect_network (ethertype : N) (data : bytes) : Packet :=
  if (ethertype =? 2048)%N then
    let ihl := N.to_nat (u8 data 0 mod 16) in
    if ((20 <=? length data) && (5 <=? ihl)
        && (4 * ihl <=? length data))%nat && (u8 data 0 / 16 =? 4)%N then
      LIP (u8 data 9) (take (4 * ihl) data)
        :: dissect_transport (u8 data 9) (drop (4 * ihl) data)
    else [LRaw data]
  else [LRaw data].

(** Modelled from the spec: the absent dissector [Ether(pkt_sc)]. *)
Definition dissect_Ether (pkt_sc : bytes) : Packet :=
  if (14 <=? length pkt_sc)%nat then
    LEther (take 14 pkt_sc)
      :: dissect_network (u16 pkt_sc 12) (drop 14 pkt_sc)
  else [LRaw pkt_sc].

(** ** Sample frames and summaries *)

Definition eth_ipv4 : bytes :=
  [x02; x00; x00; x00; x00; x02; x02; x00; x00; x00; x00; x01; x08; x00].

Definition eth_arp : bytes :=
  [xff; xff; xff; xff; xff; xff; x02; x00; x00; x00; x00; x01; x08; x06].

(** A 20-byte IPv4 header, 10.0.0.1 to 10.0.0.2, carrying [proto]. *)
Definition ipv4_header (proto : byte) : bytes :=
  [x45; x00; x00; x1e; x00; x01; x00; x00; x40; proto; x00; x00;
   x0a; x00; x00; x01; x0a; x00; x00; x02].

(** UDP, port 5353 to port 53, two bytes of payload. *)
Definition udp_frame : bytes :=
  eth_ipv4 ++ ipv4_header x11
    ++ [x14; xe9; x00; x35; x00; x0a; x00; x00] ++ [xab; xcd].

(** TCP, port 49152 to port 80, data offset 6: one word of options (four
    no-operation bytes) before two bytes of payload. *)
Definition tcp_fixed_header : bytes :=
  [xc0; x00; x00; x50; x00; x00; x00; x01; x00; x00; x00; x00;
   x60; x18; x20; x00; x00; x00; x00; x00].

Definition tcp_options_frame : bytes :=
  eth_ipv4 ++ ipv4_header x06 ++ tcp_fixed_header
    ++ [x01; x01; x01; x01] ++ [xde; xad].

(** ICMP echo request: IPv4 protocol 1. *)
Definition icmp_frame : bytes :=
  eth_ipv4 ++ ipv4_header x01
    ++ [x08; x00; xf7; xff; x00; x00; x00; x00].

(** An ARP request: ethertype 0x0806, no IPv4 header. *)
Definition arp_frame : bytes :=
  eth_arp ++ [x00; x01; x08; x00; x06; x04; x00; x01;
              x02; x00; x00; x00; x00; x01; x0a; x00; x00; x01;
              x00; x00; x00; x00; x00; x00; x0a; x00; x00; x02].

(** The summary a provider that numbers by position gives packet [n]. *)
Definition summary_no (n : nat) : Summary.t :=
  Summary.mk (str_N (N.of_nat n)) "0.000000" "DNS" "Standard query"
    "10.0.0.1" "10.0.0.2" "44".

(** A world in which the output path is taken by a file of one line. *)
Definition taken_output_world : World :=
  {| fs := <[ "out.csv" := Text ["kept"] ]>
             {[ "in.pcap" := Capture [udp_frame] [summary_no 1] ]};
     stdout := [];
     stderr := [] |}.

Definition capture_world (records : list bytes)
    (summaries : list Summary.t) : World :=
  {| fs := {[ "in.pcap" := Capture records summaries ]};
     stdout := [];
     stderr := [] |}.

(** ** Vocabulary of the statements *)

(** The line [fmt.format] produces, written out: seven bars, the transport
    kind in parentheses behind the protocol label, each port behind its
    address after a colon. *)
Definition row_text (pkt_sh : Summary.t) (kind : string) (sport dport : N)
    (payload_bytes : bytes) : string :=
  Summary.no pkt_sh +:+ "|" +:+ Summary.time pkt_sh +:+ "|"
    +:+ Summary.protocol pkt_sh +:+ "(" +:+ kind +:+ ")|"
    +:+ Summary.info pkt_sh +:+ "|"
    +:+ Summary.source pkt_sh +:+ ":" +:+ str_N sport +:+ "|"
    +:+ Summary.destination pkt_sh +:+ ":" +:+ str_N dport +:+ "|"
    +:+ Summary.length pkt_sh +:+ "|" +:+ hex payload_bytes.

(** The row as the specification words it: the eleven fields, each
    separated from the next by a vertical bar. *)
Definition bar_separated_row (pkt_sh : Summary.t) (kind : string)
    (sport dport : string) (payload_bytes : bytes) : string :=
  String.concat "|"
    [Summary.no pkt_sh; Summary.time pkt_sh; Summary.protocol pkt_sh;
     kind; Summary.info pkt_sh; Summary.source pkt_sh; sport;
     Summary.destination pkt_sh; dport; Summary.length pkt_sh;
     hex payload_bytes].

Definition has_layer (cls : LayerClass) (pkt : Packet) : bool :=
  match getlayer cls pkt with
  | Ok _ => true
  | Raise _ => false
  end.

(** A dissected packet that is UDP or TCP over IPv4: its IPv4 layer says
    protocol 17 and carries a UDP layer, or says 6 and carries a TCP
    layer. *)
Definition udp_or_tcp (pkt : Packet) : bool :=
  match getlayer IP pkt with
  | Ok ip_pkt =>
      match fields_proto ip_pkt with
      | Ok proto =>
          ((proto =? 17)%N && has_layer UDP ip_pkt)
          || ((proto =? 6)%N && has_layer TCP ip_pkt)
      | Raise _ => false
      end
  | Raise _ => false
  end.

(** The protocol field of the IPv4 layer, when there is one. *)
Definition ip_proto (pkt : Packet) : option N :=
  match getlayer IP pkt with
  | Ok ip_pkt =>
      match fields_proto ip_pkt with
      | Ok proto => Some proto
      | Raise _ => None
      end
  | Raise _ => None
  end.

(** The records the specification would skip as unsupported: those
    without an IPv4 layer. *)
Definition unsupported (Ether : bytes -> Packet) (records : list bytes)
  : list bytes :=
  filter (fun r => has_layer IP (Ether r) = false) records.

(** The text of a row before its first vertical bar. *)
Fixpoint before_bar (row : string) : string :=
  match row with
  | "" => ""
  | String c rest =>
      if Ascii.eqb c "|" then "" else String c (before_bar rest)
  end.

(** The number of vertical bars in a row. *)
Fixpoint count_bars (row : string) : nat :=
  match row with
  | "" => 0
  | String c rest =>
      (if Ascii.eqb c "|" then 1 else 0) + count_bars rest
  end.

(** The lines of the text file at [path], if there is one. *)
Definition lines_at (w : World) (path : string) : option (list string) :=
  match fs w !! path with
  | Some (Text lines) => Some lines
  | _ => None
  end.

(** [row] is the line [render_csv_row] writes for a summary and the
    record paired with it. *)
Definition row_of (Ether : bytes -> Packet) (row : string)
    (pair : Summary.t * bytes) : Prop :=
  forall fh, render_csv_row Ether pair.1 pair.2 fh = Ok (fh ++ [row]).

(** The state in which [pcap2csv] enters its loop. *)
Definition loop_start (summaries : list Summary.t) : LoopState :=
  {| frame_num := 0; pcap_pyshark := summaries; fh_csv := [] |}.

Definition is_digit (c : ascii) : bool :=
  let n := N_of_ascii c in ((48 <=? n) && (n <=? 57))%N.

(** The provider numbers its summaries by position, from 1. *)
Definition numbered_from_one (summaries : list Summary.t) : Prop :=
  forall i s, summaries !! i = Some s ->
              Summary.no s = str_N (N.of_nat (S i)).

(** The layer class the branches on [proto] look up: [UDP] for 17,
    [TCP] for 6, none for any other protocol. *)
Definition transport_class (proto : N) : option LayerClass :=
  if (proto =? 17)%N then Some UDP
  else if (proto =? 6)%N then Some TCP
  else None.

(** The marker [render_csv_row] prints for a transport layer class. *)
Definition kind_of (cls : LayerClass) : string :=
  match cls with
  | UDP => "UDP"
  | TCP => "TCP"
  | _ => "???"
  end.

(** The ports of a transport layer. *)
Definition layer_ports (l : Layer) : option (N * N) :=
  match l with
  | LUDP s d _ | LTCP s d _ => Some (s, d)
  | _ => None
  end.

(** The UDP packet of [udp_frame] behind another Ethernet header. *)
Definition udp_frame_broadcast : bytes :=
  [xff; xff; xff; xff; xff; xff; x02; x00; x00; x00; x00; x09; x08; x00]
    ++ ipv4_header x11
    ++ [x14; xe9; x00; x35; x00; x0a; x00; x00] ++ [xab; xcd].

(** An IPv4 frame that announces UDP and ends four bytes into the UDP
    header: too short for the header to be decoded. *)
Definition short_udp_frame : bytes :=
  eth_ipv4 ++ ipv4_header x11 ++ [x14; xe9; x00; x35].

(** ** Rendering one row *)

Lemma append_empty_r (s : string) : s +:+ "" = s.
Proof.
  induction s as [|c s IH]; [reflexivity|].
  change (String c (s +:+ "") = String c s). now rewrite IH.
Qed.

Lemma format_fmt (a0 a1 a2 a3 a4 a5 a6 a7 a8 a9 a10 : string) :
  format fmt [a0; a1; a2; a3; a4; a5; a6; a7; a8; a9; a10]
  = Ok (a0 +:+ "|" +:+ a1 +:+ "|" +:+ a2 +:+ "(" +:+ a3 +:+ ")|"
          +:+ a4 +:+ "|" +:+ a5 +:+ ":" +:+ a6 +:+ "|"
          +:+ a7 +:+ ":" +:+ a8 +:+ "|" +:+ a9 +:+ "|" +:+ a10).
Proof.
  rewrite <- (append_empty_r a10) at 2. reflexivity.
Qed.

Lemma getlayer_head cls pkt sub :
  getlayer cls pkt = Ok sub ->
  exists l rest, sub = l :: rest /\ layer_class l = cls.
Proof.
  induction pkt as [|l rest IH]; simpl; [discriminate|].
  destruct (decide (layer_class l = cls)) as [Hc|Hc]; [|exact IH].
  intros [= <-]. eauto.
Qed.

Lemma getlayer_here cls l rest :
  layer_class l = cls -> getlayer cls (l :: rest) = Ok (l :: rest).
Proof. intros H. simpl. now destruct (decide (layer_class l = cls)). Qed.

Lemma getlayer_next cls l rest :
  layer_class l <> cls -> getlayer cls (l :: rest) = getlayer cls rest.
Proof. intros H. simpl. now destruct (decide (layer_class l = cls)). Qed.

Lemma attr_ports_UDP l rest :
  layer_class l = UDP ->
  exists sport dport,
    attr_sport (l :: rest) = Ok sport /\ attr_dport (l :: rest) = Ok dport.
Proof. destruct l; try discriminate; simpl; eauto. Qed.

Lemma attr_ports_TCP l rest :
  layer_class l = TCP ->
  exists sport dport,
    attr_sport (l :: rest) = Ok sport /\ attr_dport (l :: rest) = Ok dport.
Proof. destruct l; try discriminate; simpl; eauto. Qed.

Section RowFacts.

Variable Ether : bytes -> Packet.

(** What [render_csv_row] does once the locals are known. *)
Lemma render_csv_row_locals pkt_sh pkt_sc fh locals :
  l4_locals Ether pkt_sc = Ok locals ->
  render_csv_row Ether pkt_sh pkt_sc fh =
    match l4_sport locals, l4_dport locals with
    | Some sport, Some dport =>
        Ok (fh ++ [row_text pkt_sh (l4_proto_name locals) sport dport
                     (l4_payload_bytes locals)])
    | None, _ => Raise (UnboundLocalError "l4_sport")
    | Some _, None => Raise (UnboundLocalError "l4_dport")
    end.
Proof.
  intros H. unfold render_csv_row. rewrite H. simpl.
  destruct (l4_sport locals), (l4_dport locals); simpl; try reflexivity.
  rewrite append_empty_r. reflexivity.
Qed.

Lemma render_csv_row_raise pkt_sh pkt_sc fh e :
  l4_locals Ether pkt_sc = Raise e ->
  render_csv_row Ether pkt_sh pkt_sc fh = Raise e.
Proof. intros H. unfold render_csv_row. now rewrite H. Qed.

(** The branches assign both ports or none. *)
Lemma l4_locals_ports pkt_sc locals :
  l4_locals Ether pkt_sc = Ok locals ->
  (exists sport dport,
      l4_sport locals = Some sport /\ l4_dport locals = Some dport)
  \/ (l4_sport locals = None /\ l4_dport locals = None
      /\ l4_proto_name locals = "???"
      /\ l4_payload_bytes locals = [x00]).
Proof.
  unfold l4_locals.
  destruct (getlayer IP (Ether pkt_sc)) as [ip|]; simpl; [|discriminate].
  destruct (fields_proto ip) as [proto|]; simpl; [|discriminate].
  destruct (proto =? 17)%N.
  - destruct (getlayer UDP ip) as [u|]; simpl; [|discriminate].
    destruct (attr_sport u); simpl; [|discriminate].
    destruct (attr_dport u); simpl; [|discriminate].
    intros [= <-]. left. simpl. eauto.
  - destruct (proto =? 6)%N.
    + destruct (getlayer TCP ip) as [t|]; simpl; [|discriminate].
      destruct (attr_sport t); simpl; [|discriminate].
      destruct (attr_dport t); simpl; [|discriminate].
      intros [= <-]. left. simpl. eauto.
    + intros [= <-]. right. simpl. auto.
Qed.

(** The locals never fail with [StopIteration]. *)
Lemma l4_locals_not_stop pkt_sc :
  l4_locals Ether pkt_sc <> Raise StopIteration.
Proof.
  unfold l4_locals.
  assert (Hg : forall cls pkt, getlayer cls pkt <> Raise StopIteration).
  { intros cls pkt. induction pkt as [|l rest IH]; simpl; [discriminate|].
    destruct (decide (layer_class l = cls)); [discriminate|exact IH]. }
  assert (Hs : forall pkt, attr_sport pkt <> Raise StopIteration).
  { induction pkt as [|[] rest IH]; simpl; try discriminate; exact IH. }
  assert (Hd : forall pkt, attr_dport pkt <> Raise StopIteration).
  { induction pkt as [|[] rest IH]; simpl; try discriminate; exact IH. }
  destruct (getlayer IP (Ether pkt_sc)) as [ip|e] eqn:E; simpl.
  2:{ intros [= ->]. exact (Hg _ _ E). }
  destruct (fields_proto ip) as [proto|e] eqn:Ep; simpl.
  2:{ destruct ip as [|[] ?]; simpl in Ep; congruence. }
  destruct (proto =? 17)%N.
  - destruct (getlayer UDP ip) as [u|e] eqn:Eu; simpl.
    2:{ intros [= ->]. exact (Hg _ _ Eu). }
    destruct (attr_sport u) as [?|e] eqn:Es; simpl.
    2:{ intros [= ->]. exact (Hs _ Es). }
    destruct (attr_dport u) as [?|e] eqn:Ed; simpl; [discriminate|].
    intros [= ->]. exact (Hd _ Ed).
  - destruct (proto =? 6)%N; [|discriminate].
    destruct (getlayer TCP ip) as [u|e] eqn:Eu; simpl.
    2:{ intros [= ->]. exact (Hg _ _ Eu). }
    destruct (attr_sport u) as [?|e] eqn:Es; simpl.
    2:{ intros [= ->]. exact (Hs _ Es). }
    destruct (attr_dport u) as [?|e] eqn:Ed; simpl; [discriminate|].
    intros [= ->]. exact (Hd _ Ed).
Qed.

(** A row is one appended line, or an exception other than the
    provider's end-of-sequence. *)
Lemma render_csv_row_cases pkt_sh pkt_sc :
  (exists row, forall fh', render_csv_row Ether pkt_sh pkt_sc fh'
                           = Ok (fh' ++ [row]))
  \/ (exists e, e <> StopIteration
              /\ forall fh', render_csv_row Ether pkt_sh pkt_sc fh'
                             = Raise e).
Proof.
  destruct (l4_locals Ether pkt_sc) as [locals|e] eqn:E.
  - destruct (l4_locals_ports _ _ E) as [(sp & dp & Hs & Hd)|(Hs & Hd & _)].
    + left. eexists. intros fh'.
      rewrite (render_csv_row_locals _ _ _ _ E), Hs, Hd. reflexivity.
    + right. exists (UnboundLocalError "l4_sport"). split; [discriminate|].
      intros fh'. rewrite (render_csv_row_locals _ _ _ _ E), Hs.
      reflexivity.
  - right. exists e. split.
    + intros ->. exact (l4_locals_not_stop _ E).
    + intros fh'. now apply render_csv_row_raise.
Qed.

(** UDP or TCP over IPv4 always renders. *)
Lemma udp_or_tcp_locals pkt_sc :
  udp_or_tcp (Ether pkt_sc) = true ->
  exists kind sport dport data,
    l4_locals Ether pkt_sc
    = Ok {| l4_payload_bytes := data; l4_proto_name := kind;
            l4_sport := Some sport; l4_dport := Some dport |}.
Proof.
  unfold udp_or_tcp, l4_locals, has_layer.
  destruct (getlayer IP (Ether pkt_sc)) as [ip|]; simpl; [|discriminate].
  destruct (fields_proto ip) as [proto|]; simpl; [|discriminate].
  destruct (proto =? 17)%N eqn:E17; simpl.
  - destruct (getlayer UDP ip) as [u|] eqn:Eu; simpl.
    + intros _. destruct (getlayer_head _ _ _ Eu) as (l & rest & -> & Hc).
      destruct (attr_ports_UDP l rest Hc) as (sp & dp & -> & ->).
      simpl. eauto.
    + apply N.eqb_eq in E17. subst proto. discriminate.
  - destruct (proto =? 6)%N; simpl; [|discriminate].
    destruct (getlayer TCP ip) as [u|] eqn:Eu; simpl; [|discriminate].
    intros _. destruct (getlayer_head _ _ _ Eu) as (l & rest & -> & Hc).
    destruct (attr_ports_TCP l rest Hc) as (sp & dp & -> & ->).
    simpl. eauto.
Qed.

Lemma udp_or_tcp_renders pkt_sh pkt_sc :
  udp_or_tcp (Ether pkt_sc) = true ->
  exists kind sport dport data,
    forall fh, render_csv_row Ether pkt_sh pkt_sc fh
               = Ok (fh ++ [row_text pkt_sh kind sport dport data]).
Proof.
  intros H. destruct (udp_or_tcp_locals _ H) as (k & sp & dp & d & E).
  exists k, sp, dp, d. intros fh.
  now rewrite (render_csv_row_locals _ _ _ _ E).
Qed.

End RowFacts.

(** ** Digits *)

Lemma hex_byte_facts (b : byte) :
  let hi := (Byte.to_N b / 16)%N in
  let lo := (Byte.to_N b mod 16)%N in
  unhex_digit (hex_digit hi) = Some hi
  /\ unhex_digit (hex_digit lo) = Some lo
  /\ Byte.of_N (16 * hi + lo) = Some b
  /\ is_lower_hex (hex_digit hi) = true
  /\ is_lower_hex (hex_digit lo) = true.
Proof. destruct b; vm_compute; auto. Qed.

Lemma hex_is_lower (bs : bytes) : string_forallb is_lower_hex (hex bs) = true.
Proof.
  induction bs as [|b bs IH]; [reflexivity|].
  destruct (hex_byte_facts b) as (_ & _ & _ & Hh & Hl).
  cbn [hex string_forallb]. now rewrite Hh, Hl, IH.
Qed.

Lemma unhex_hex (bs : bytes) : unhex (hex bs) = Some bs.
Proof.
  induction bs as [|b bs IH]; [reflexivity|].
  destruct (hex_byte_facts b) as (Hh & Hl & Hb & _).
  cbn [hex unhex]. now rewrite Hh, Hl, IH, Hb.
Qed.

Lemma string_of_uint_digits (d : Decimal.uint) :
  string_forallb is_digit (NilEmpty.string_of_uint d) = true.
Proof. induction d; simpl; auto. Qed.

Lemma str_N_digits (n : N) : string_forallb is_digit (str_N n) = true.
Proof.
  unfold str_N, NilZero.string_of_uint.
  destruct (N.to_uint n) eqn:E; try reflexivity;
    rewrite <- E; apply string_of_uint_digits.
Qed.

Lemma before_bar_digits (a rest : string) :
  string_forallb is_digit a = true ->
  before_bar (a +:+ String "|" rest) = a.
Proof.
  induction a as [|c a IH]; [reflexivity|].
  cbn [string_forallb]. intros [Hc Ha]%andb_true_iff.
  change (before_bar (String c (a +:+ String "|" rest)) = String c a).
  cbn [before_bar].
  destruct (Ascii.eqb c "|") eqn:Ec.
  - apply Ascii.eqb_eq in Ec. subst c. discriminate.
  - now rewrite IH.
Qed.

Lemma before_bar_row_text pkt_sh kind sport dport data n :
  Summary.no pkt_sh = str_N n ->
  before_bar (row_text pkt_sh kind sport dport data) = str_N n.
Proof.
  intros H. unfold row_text. rewrite H.
  apply before_bar_digits, str_N_digits.
Qed.

(** ** The loop *)

Section LoopFacts.

Variable Ether : bytes -> Packet.

(** A prefix of records that all render, with enough summaries left:
    the loop writes their rows and goes on with the rest. *)
Lemma for_loop_prefix (pre rest : list bytes) :
  forall st,
    length pre <= length (pcap_pyshark st) ->
    Forall (fun r => udp_or_tcp (Ether r) = true) pre ->
    exists rows,
      Forall2 (row_of Ether) rows (zip (pcap_pyshark st) pre)
      /\ for_loop Ether (pre ++ rest) st
         = for_loop Ether rest
             {| frame_num := frame_num st + length pre;
                pcap_pyshark := drop (length pre) (pcap_pyshark st);
                fh_csv := fh_csv st ++ rows |}.
Proof.
  induction pre as [|r pre IH]; intros [fn cur fh] Hlen Hok;
    cbn [app for_loop pcap_pyshark frame_num fh_csv length] in *.
  - exists []. split.
    + destruct cur; constructor.
    + now rewrite Nat.add_0_r, drop_0, app_nil_r.
  - destruct cur as [|s cur]; simpl in Hlen; [lia|].
    apply Forall_cons in Hok as [Hr Hpre].
    destruct (udp_or_tcp_renders Ether s r Hr) as (k & sp & dp & d & Hrow).
    cbn [next_packet]. rewrite Hrow.
    destruct (IH {| frame_num := S fn; pcap_pyshark := cur;
                    fh_csv := fh ++ [row_text s k sp dp d] |})
      as (rows & HR & Hloop); simpl; [lia|assumption|].
    exists (row_text s k sp dp d :: rows). split.
    + constructor; [exact Hrow|exact HR].
    + simpl in Hloop. rewrite Hloop.
      now rewrite <- app_assoc, Nat.add_succ_r.
Qed.

(** Whatever the records are: the lines written are appended, a loop
    that ends quietly has counted one for each line it wrote and has
    paired as many records as both sequences allow, and the loop never
    exits the process. *)
Lemma for_loop_counts (records : list bytes) :
  forall st o st',
    for_loop Ether records st = (o, st') ->
    exists rows,
      fh_csv st' = fh_csv st ++ rows
      /\ (o = Returned ->
          frame_num st' = frame_num st + length rows
          /\ length rows
             = Nat.min (length records) (length (pcap_pyshark st)))
      /\ (forall code, o <> Exited code).
Proof.
  induction records as [|r records IH]; intros [fn cur fh] o st' H;
    cbn [for_loop pcap_pyshark frame_num fh_csv length next_packet] in *.
  - injection H as <- <-. exists []. simpl.
    rewrite app_nil_r. repeat split; [lia|discriminate].
  - destruct cur as [|s cur]; cbn [next_packet] in H.
    + injection H as <- <-. exists []. simpl.
      rewrite app_nil_r. repeat split; [lia|discriminate].
    + destruct (render_csv_row_cases Ether s r)
        as [(row & Hrow)|(e & He & Hraise)].
      * rewrite Hrow in H. apply IH in H as (rows & Hfh & Hret & Hex).
        simpl in *. exists (row :: rows). rewrite Hfh, <- app_assoc.
        split; [reflexivity|]. split; [|exact Hex].
        intros Ho. destruct (Hret Ho) as [Hf Hl].
        cbn [length]. rewrite Hf, Hl. split; [|reflexivity].
        now rewrite Nat.add_succ_r.
      * rewrite Hraise in H. destruct e; try congruence;
          injection H as <- <-; exists []; simpl; rewrite app_nil_r;
          repeat split; discriminate.
Qed.

(** The provider is asked at most once per record: what is left
    behind the cursor is the summaries without their first [k], for
    some [k] no larger than the number of records. *)
Lemma for_loop_cursor (records : list bytes) :
  forall st o st',
    for_loop Ether records st = (o, st') ->
    exists k, k <= length records
              /\ pcap_pyshark st' = drop k (pcap_pyshark st).
Proof.
  induction records as [|r records IH]; intros [fn cur fh] o st' H;
    cbn [for_loop pcap_pyshark frame_num fh_csv length next_packet] in *.
  - injection H as <- <-. exists 0. split; [lia|reflexivity].
  - destruct cur as [|s cur]; cbn [next_packet] in H.
    + injection H as <- <-. exists 0. split; [lia|reflexivity].
    + destruct (render_csv_row_cases Ether s r)
        as [(row & Hrow)|(e & He & Hraise)].
      * rewrite Hrow in H. apply IH in H as (k & Hk & Hcur).
        exists (S k). split; [lia|exact Hcur].
      * rewrite Hraise in H.
        exists 1. split; [lia|].
        destruct e; try congruence; injection H as <- <-; reflexivity.
Qed.

End LoopFacts.

(** ** [pcap2csv] on an existing capture *)

Lemma pcap2csv_run Ether in_pcap out_csv w records summaries o st :
  fs w !! in_pcap = Some (Capture records summaries) ->
  in_pcap <> out_csv ->
  for_loop Ether records (loop_start summaries) = (o, st) ->
  pcap2csv Ether in_pcap out_csv w
  = (o, {| fs := <[out_csv := Text (fh_csv st)]> (fs w);
           stdout := match o with
                     | Returned => stdout w ++ [packets_read (frame_num st)]
                     | _ => stdout w
                     end;
           stderr := stderr w |}).
Proof.
  intros Hin Hne Hloop. unfold pcap2csv, FileCapture, RawPcapReader.
  rewrite Hin, lookup_insert_ne, Hin by congruence.
  unfold loop_start in Hloop. rewrite Hloop, insert_insert_eq.
  destruct o; reflexivity.
Qed.

Section Pairing.

Variable Ether : bytes -> Packet.

(** When every record that has a summary renders, the loop ends
    quietly after pairing as many records as both sequences allow. *)
Lemma for_loop_paired (records : list bytes) (summaries : list Summary.t) :
  Forall (fun r => udp_or_tcp (Ether r) = true)
         (take (length summaries) records) ->
  exists rows,
    Forall2 (row_of Ether) rows (zip summaries records)
    /\ for_loop Ether records (loop_start summaries)
       = (Returned,
          {| frame_num := Nat.min (length records) (length summaries);
             pcap_pyshark := drop (length records) summaries;
             fh_csv := rows |}).
Proof.
  intros Hok.
  destruct (le_lt_dec (length records) (length summaries)) as [Hle|Hlt].
  - rewrite take_ge in Hok by exact Hle.
    destruct (for_loop_prefix Ether records [] (loop_start summaries))
      as (rows & HR & Hloop); [exact Hle|exact Hok|].
    exists rows. split; [exact HR|].
    rewrite app_nil_r in Hloop. rewrite Hloop. simpl.
    now rewrite Nat.min_l by exact Hle.
  - set (n := length summaries) in *.
    assert (Hpre : length (take n records) = n)
      by (rewrite length_take; lia).
    destruct (for_loop_prefix Ether (take n records) (drop n records)
                (loop_start summaries))
      as (rows & HR & Hloop); [simpl; lia|exact Hok|].
    exists rows. split.
    + simpl in HR. unfold n in HR. now rewrite zip_with_take_r in HR.
    + rewrite take_drop in Hloop. rewrite Hloop. simpl.
      rewrite Hpre, Nat.min_r by lia.
      rewrite (drop_ge summaries (length records)) by lia.
      rewrite (drop_ge summaries n) by (unfold n; lia).
      destruct (drop n records) as [|r rest] eqn:E; [|reflexivity].
      apply (f_equal length) in E. rewrite length_drop in E.
      simpl in E. lia.
Qed.

Lemma getlayer_raise cls pkt e :
  getlayer cls pkt = Raise e -> e = IndexError (class_name cls).
Proof.
  induction pkt as [|l rest IH]; simpl; [congruence|].
  destruct (decide (layer_class l = cls)); [discriminate|exact IH].
Qed.

(** A record without an IPv4 layer makes [render_csv_row] raise the
    lookup's [IndexError]. *)
Lemma no_IP_raises pkt_sh pkt_sc fh :
  has_layer IP (Ether pkt_sc) = false ->
  render_csv_row Ether pkt_sh pkt_sc fh = Raise (IndexError "IP").
Proof.
  unfold has_layer. intros H. apply render_csv_row_raise.
  unfold l4_locals.
  destruct (getlayer IP (Ether pkt_sc)) as [|e] eqn:E; [discriminate|].
  now rewrite (getlayer_raise _ _ _ E).
Qed.

End Pairing.

(** ** Provider under-production *)

(** C1, as stated, fails: with two UDP records and a provider that
    supplies one summary the run returns normally, one row is in the
    file and the final line reports one packet; no error is raised. *)
Lemma under_production_returns_normally :
  let run := pcap2csv dissect_Ether "in.pcap" "out.csv"
               (capture_world [udp_frame; udp_frame] [summary_no 1]) in
  run.1 = Returned
  /\ lines_at run.2 "out.csv"
     = Some ["1|0.000000|DNS(UDP)|Standard query|10.0.0.1:5353|10.0.0.2:53|44|abcd"]
  /\ stdout run.2 = ["1 packets read"]
  /\ stderr run.2 = [].
Proof. vm_compute. auto. Qed.

(** C1, amended: when the provider's sequence ends before the capture
    reader's and the records paired so far are UDP or TCP over IPv4, the
    loop stops at the first unmatched record without raising: the run
    returns normally, the file holds the rows of the matched pairs and
    nothing for the unmatched tail, one row per summary, and the final
    line reports the number of summaries. *)
Theorem under_production_stops_quietly
    (Ether : bytes -> Packet) (in_pcap out_csv : string) (w : World)
    (records : list bytes) (summaries : list Summary.t) :
  fs w !! in_pcap = Some (Capture records summaries) ->
  in_pcap <> out_csv ->
  length summaries < length records ->
  Forall (fun r => udp_or_tcp (Ether r) = true)
         (take (length summaries) records) ->
  exists rows,
    pcap2csv Ether in_pcap out_csv w
    = (Returned,
       {| fs := <[out_csv := Text rows]> (fs w);
          stdout := stdout w ++ [packets_read (length summaries)];
          stderr := stderr w |})
    /\ Forall2 (row_of Ether) rows (zip summaries records)
    /\ length rows = length summaries.
Proof.
  intros Hin Hne Hlt Hok.
  destruct (for_loop_paired Ether records summaries Hok)
    as (rows & HR & Hloop).
  exists rows. split; [|split; [exact HR|]].
  - rewrite (pcap2csv_run _ _ _ _ _ _ _ _ Hin Hne Hloop). simpl.
    now rewrite Nat.min_r by lia.
  - rewrite (Forall2_length _ _ _ HR), length_zip. lia.
Qed.

Lemma under_production_stops_quietly_witness :
  exists rows,
    pcap2csv dissect_Ether "in.pcap" "out.csv"
      (capture_world [udp_frame; udp_frame] [summary_no 1])
    = (Returned,
       {| fs := <["out.csv" := Text rows]>
                  (fs (capture_world [udp_frame; udp_frame] [summary_no 1]));
          stdout := [] ++ [packets_read 1];
          stderr := [] |})
    /\ Forall2 (row_of dissect_Ether) rows
         (zip [summary_no 1] [udp_frame; udp_frame])
    /\ length rows = 1.
Proof.
  apply (under_production_stops_quietly dissect_Ether "in.pcap" "out.csv"
           (capture_world [udp_frame; udp_frame] [summary_no 1])
           [udp_frame; udp_frame] [summary_no 1]).
  - reflexivity.
  - discriminate.
  - simpl. lia.
  - repeat constructor.
Defined.

(** ** Records without an IPv4 layer *)

(** C3, as stated, fails: with an ARP record followed by a UDP record
    and a summary for each, the ARP record is not skipped.  The run ends
    with the uncaught [IndexError] of the layer lookup, the UDP record
    behind it is never rendered, and no final line is printed. *)
Lemma unsupported_record_is_not_skipped :
  let run := pcap2csv dissect_Ether "in.pcap" "out.csv"
               (capture_world [arp_frame; udp_frame]
                  [summary_no 1; summary_no 2]) in
  run.1 = Uncaught (IndexError "IP")
  /\ lines_at run.2 "out.csv" = Some []
  /\ stdout run.2 = []
  /\ udp_or_tcp (dissect_Ether udp_frame) = true.
Proof. vm_compute. auto. Qed.

(** C3, amended: a record without an IPv4 layer that is reached with a
    summary still available makes the layer lookup raise [IndexError];
    the handler around the row catches only the provider's
    [StopIteration], so the run ends there with that exception.  The
    record does not appear in the output, which holds the rows of the
    records before it; no later record is rendered and no final line is
    printed. *)
Theorem unsupported_record_aborts
    (Ether : bytes -> Packet) (in_pcap out_csv : string) (w : World)
    (pre post : list bytes) (r : bytes) (summaries : list Summary.t) :
  fs w !! in_pcap = Some (Capture (pre ++ r :: post) summaries) ->
  in_pcap <> out_csv ->
  length pre < length summaries ->
  Forall (fun r => udp_or_tcp (Ether r) = true) pre ->
  has_layer IP (Ether r) = false ->
  exists rows,
    pcap2csv Ether in_pcap out_csv w
    = (Uncaught (IndexError "IP"),
       {| fs := <[out_csv := Text rows]> (fs w);
          stdout := stdout w;
          stderr := stderr w |})
    /\ Forall2 (row_of Ether) rows (zip summaries pre)
    /\ length rows = length pre.
Proof.
  intros Hin Hne Hlt Hok Hno.
  destruct (for_loop_prefix Ether pre (r :: post) (loop_start summaries))
    as (rows & HR & Hloop); [simpl; lia|exact Hok|].
  simpl in HR, Hloop.
  destruct (drop (length pre) summaries) as [|s cursor] eqn:E.
  { apply (f_equal length) in E. rewrite length_drop in E. simpl in E. lia. }
  cbn [for_loop pcap_pyshark next_packet fh_csv] in Hloop.
  rewrite (no_IP_raises Ether s r rows Hno) in Hloop.
  exists rows. split; [|split; [exact HR|]].
  - now rewrite (pcap2csv_run _ _ _ _ _ _ _ _ Hin Hne Hloop).
  - rewrite (Forall2_length _ _ _ HR), length_zip. lia.
Qed.

Lemma unsupported_record_aborts_witness :
  exists rows,
    pcap2csv dissect_Ether "in.pcap" "out.csv"
      (capture_world ([udp_frame] ++ arp_frame :: [udp_frame])
         [summary_no 1; summary_no 2; summary_no 3])
    = (Uncaught (IndexError "IP"),
       {| fs := <["out.csv" := Text rows]>
                  (fs (capture_world ([udp_frame] ++ arp_frame :: [udp_frame])
                         [summary_no 1; summary_no 2; summary_no 3]));
          stdout := [];
          stderr := [] |})
    /\ Forall2 (row_of dissect_Ether) rows
         (zip [summary_no 1; summary_no 2; summary_no 3] [udp_frame])
    /\ length rows = 1.
Proof.
  apply (unsupported_record_aborts dissect_Ether "in.pcap" "out.csv"
           (capture_world ([udp_frame] ++ arp_frame :: [udp_frame])
              [summary_no 1; summary_no 2; summary_no 3])
           [udp_frame] [udp_frame] arp_frame
           [summary_no 1; summary_no 2; summary_no 3]).
  - reflexivity.
  - discriminate.
  - simpl. lia.
  - repeat constructor.
  - reflexivity.
Defined.

(** ** Rows and the printed count *)

(** C4, as stated, fails: of three records the second is ARP, so the
    claim promises two rows and a final count of two.  The run writes one
    row and ends with an uncaught exception before any count is
    printed. *)
Lemma skipped_records_are_not_subtracted :
  let records := [udp_frame; arp_frame; udp_frame] in
  let run := pcap2csv dissect_Ether "in.pcap" "out.csv"
               (capture_world records
                  [summary_no 1; summary_no 2; summary_no 3]) in
  length records - length (unsupported dissect_Ether records) = 2
  /\ run.1 = Uncaught (IndexError "IP")
  /\ lines_at run.2 "out.csv"
     = Some ["1|0.000000|DNS(UDP)|Standard query|10.0.0.1:5353|10.0.0.2:53|44|abcd"]
  /\ stdout run.2 = [].
Proof. vm_compute. auto. Qed.

(** C4, amended: no record is skipped.  Every run of [pcap2csv] on a
    capture either returns, and then the number of rows in the file is
    the count on the final line and is the number of records paired with
    a summary (the smaller of the two sequence lengths), or ends with an
    exception, and then no count is printed. *)
Theorem returned_rows_match_count
    (Ether : bytes -> Packet) (in_pcap out_csv : string) (w : World)
    (records : list bytes) (summaries : list Summary.t) :
  fs w !! in_pcap = Some (Capture records summaries) ->
  in_pcap <> out_csv ->
  exists o rows,
    pcap2csv Ether in_pcap out_csv w
    = (o, {| fs := <[out_csv := Text rows]> (fs w);
             stdout := match o with
                       | Returned => stdout w ++ [packets_read (length rows)]
                       | _ => stdout w
                       end;
             stderr := stderr w |})
    /\ (o = Returned ->
        length rows = Nat.min (length records) (length summaries))
    /\ (forall code, o <> Exited code).
Proof.
  intros Hin Hne.
  destruct (for_loop Ether records (loop_start summaries)) as [o st] eqn:E.
  destruct (for_loop_counts Ether records _ _ _ E)
    as (rows & Hfh & Hret & Hex).
  simpl in Hfh, Hret. exists o, rows.
  rewrite (pcap2csv_run _ _ _ _ _ _ _ _ Hin Hne E), Hfh.
  split; [|split; [|exact Hex]].
  - destruct o; try reflexivity.
    destruct (Hret eq_refl) as [-> _]. reflexivity.
  - intros Ho. now destruct (Hret Ho).
Qed.

Lemma returned_rows_match_count_witness :
  exists o rows,
    pcap2csv dissect_Ether "in.pcap" "out.csv"
      (capture_world [udp_frame; tcp_options_frame]
         [summary_no 1; summary_no 2])
    = (o, {| fs := <["out.csv" := Text rows]>
                     (fs (capture_world [udp_frame; tcp_options_frame]
                            [summary_no 1; summary_no 2]));
             stdout := match o with
                       | Returned => [] ++ [packets_read (length rows)]
                       | _ => []
                       end;
             stderr := [] |})
    /\ (o = Returned -> length rows = Nat.min 2 2)
    /\ (forall code, o <> Exited code).
Proof.
  apply (returned_rows_match_count dissect_Ether "in.pcap" "out.csv"
           (capture_world [udp_frame; tcp_options_frame]
              [summary_no 1; summary_no 2])
           [udp_frame; tcp_options_frame] [summary_no 1; summary_no 2]).
  - reflexivity.
  - discriminate.
Defined.

(** ** Transport protocols other than UDP and TCP *)

(** C2 on the code: for an IPv4 packet whose protocol is neither 17 nor
    6 the last branch assigns the one-zero-byte payload and the marker
    [???] but neither port, so reading [l4_sport] for the row raises
    [UnboundLocalError] and no line is appended to the file. *)
Theorem unknown_transport_raises
    (Ether : bytes -> Packet) (pkt_sh : Summary.t) (pkt_sc : bytes)
    (fh : list string) (proto : N) :
  ip_proto (Ether pkt_sc) = Some proto ->
  proto <> 17%N ->
  proto <> 6%N ->
  l4_locals Ether pkt_sc
  = Ok {| l4_payload_bytes := [x00]; l4_proto_name := "???";
          l4_sport := None; l4_dport := None |}
  /\ render_csv_row Ether pkt_sh pkt_sc fh
     = Raise (UnboundLocalError "l4_sport").
Proof.
  intros Hp H17 H6.
  assert (E : l4_locals Ether pkt_sc
              = Ok {| l4_payload_bytes := [x00]; l4_proto_name := "???";
                      l4_sport := None; l4_dport := None |}).
  { unfold ip_proto in Hp. unfold l4_locals.
    destruct (getlayer IP (Ether pkt_sc)) as [ip|]; [|discriminate].
    simpl. destruct (fields_proto ip) as [p|]; [|discriminate].
    injection Hp as ->. simpl.
    apply N.eqb_neq in H17, H6. now rewrite H17, H6. }
  split; [exact E|].
  now rewrite (render_csv_row_locals _ _ _ _ _ E).
Qed.

Lemma unknown_transport_raises_witness :
  l4_locals dissect_Ether icmp_frame
  = Ok {| l4_payload_bytes := [x00]; l4_proto_name := "???";
          l4_sport := None; l4_dport := None |}
  /\ render_csv_row dissect_Ether (summary_no 1) icmp_frame []
     = Raise (UnboundLocalError "l4_sport").
Proof.
  apply (unknown_transport_raises dissect_Ether (summary_no 1) icmp_frame
           [] 1%N).
  - reflexivity.
  - discriminate.
  - discriminate.
Defined.

(** The same packet in a run: the exception is not caught, the file
    stays without a row and no count is printed. *)
Example unknown_transport_run :
  let run := pcap2csv dissect_Ether "in.pcap" "out.csv"
               (capture_world [icmp_frame] [summary_no 1]) in
  run.1 = Uncaught (UnboundLocalError "l4_sport")
  /\ lines_at run.2 "out.csv" = Some []
  /\ stdout run.2 = [].
Proof. vm_compute. auto. Qed.

(** ** As many summaries as records *)

(** C5: for a capture whose [K] records are all UDP or TCP over IPv4 and
    a provider that supplies exactly [K] summaries, numbered by position
    from 1, the run returns normally, the file holds exactly [K] rows,
    and the frame number field of row [i] (counted from 0) is [i + 1]. *)
Theorem equal_lengths_number_rows
    (Ether : bytes -> Packet) (in_pcap out_csv : string) (w : World)
    (records : list bytes) (summaries : list Summary.t) :
  fs w !! in_pcap = Some (Capture records summaries) ->
  in_pcap <> out_csv ->
  length summaries = length records ->
  Forall (fun r => udp_or_tcp (Ether r) = true) records ->
  numbered_from_one summaries ->
  exists rows,
    pcap2csv Ether in_pcap out_csv w
    = (Returned,
       {| fs := <[out_csv := Text rows]> (fs w);
          stdout := stdout w ++ [packets_read (length records)];
          stderr := stderr w |})
    /\ length rows = length records
    /\ forall i row, rows !! i = Some row ->
                     before_bar row = str_N (N.of_nat (S i)).
Proof.
  intros Hin Hne Hlen Hok Hnum.
  destruct (for_loop_paired Ether records summaries)
    as (rows & HR & Hloop).
  { rewrite take_ge by lia. exact Hok. }
  exists rows. split; [|split].
  - rewrite (pcap2csv_run _ _ _ _ _ _ _ _ Hin Hne Hloop). simpl.
    now rewrite Nat.min_l by lia.
  - rewrite (Forall2_length _ _ _ HR), length_zip. lia.
  - intros i row Hrow.
    destruct (Forall2_lookup_l _ _ _ _ _ HR Hrow) as ([s r] & Hz & Hof).
    apply lookup_zip_with_Some in Hz as (s' & r' & [= <- <-] & Hs & Hr).
    assert (Hrok : udp_or_tcp (Ether r) = true).
    { rewrite Forall_forall in Hok. apply Hok.
      apply list_elem_of_lookup. eauto. }
    destruct (udp_or_tcp_renders Ether s r Hrok) as (k & sp & dp & d & Ht).
    specialize (Hof []). simpl in Hof. rewrite Ht in Hof.
    injection Hof as <-.
    apply before_bar_row_text, Hnum, Hs.
Qed.

Lemma equal_lengths_number_rows_witness :
  exists rows,
    pcap2csv dissect_Ether "in.pcap" "out.csv"
      (capture_world [udp_frame; tcp_options_frame]
         [summary_no 1; summary_no 2])
    = (Returned,
       {| fs := <["out.csv" := Text rows]>
                  (fs (capture_world [udp_frame; tcp_options_frame]
                         [summary_no 1; summary_no 2]));
          stdout := [] ++ [packets_read 2];
          stderr := [] |})
    /\ length rows = 2
    /\ forall i row, rows !! i = Some row ->
                     before_bar row = str_N (N.of_nat (S i)).
Proof.
  apply (equal_lengths_number_rows dissect_Ether "in.pcap" "out.csv"
           (capture_world [udp_frame; tcp_options_frame]
              [summary_no 1; summary_no 2])
           [udp_frame; tcp_options_frame] [summary_no 1; summary_no 2]).
  - reflexivity.
  - discriminate.
  - reflexivity.
  - repeat constructor.
  - intros [|[|i]] s; simpl; intros [= <-]; reflexivity.
Defined.

(** ** The layout of a row *)

Lemma count_bars_append (a b : string) :
  count_bars (a +:+ b) = count_bars a + count_bars b.
Proof.
  induction a as [|c a IH]; [reflexivity|].
  change (count_bars (String c (a +:+ b))
          = count_bars (String c a) + count_bars b).
  cbn [count_bars]. rewrite IH. lia.
Qed.

Lemma bar_separated_row_bars pkt_sh kind sport dport data :
  10 <= count_bars (bar_separated_row pkt_sh kind sport dport data).
Proof.
  unfold bar_separated_row. cbn [String.concat].
  repeat (rewrite count_bars_append; cbn [count_bars Ascii.eqb Bool.eqb]).
  lia.
Qed.

(** C6, as stated, fails: the row written for a UDP packet is not the
    eleven fields separated by vertical bars, whatever text stands for
    the transport kind and the ports.  It has seven bars where eleven
    bar-separated fields have at least ten: the transport kind follows
    the protocol label in parentheses and each port follows its address
    after a colon. *)
Lemma row_is_not_bar_separated :
  render_csv_row dissect_Ether (summary_no 1) udp_frame []
  = Ok ["1|0.000000|DNS(UDP)|Standard query|10.0.0.1:5353|10.0.0.2:53|44|abcd"]
  /\ bar_separated_row (summary_no 1) "UDP" "5353" "53" [xab; xcd]
     = "1|0.000000|DNS|UDP|Standard query|10.0.0.1|5353|10.0.0.2|53|44|abcd"
  /\ forall kind sport dport data,
       render_csv_row dissect_Ether (summary_no 1) udp_frame []
       <> Ok [bar_separated_row (summary_no 1) kind sport dport data].
Proof.
  split; [reflexivity|]. split; [reflexivity|].
  intros kind sport dport data H.
  pose proof (bar_separated_row_bars (summary_no 1) kind sport dport data)
    as Hbars.
  apply (f_equal (fun res => match res with
                             | Ok [row] => count_bars row
                             | _ => 0
                             end)) in H.
  change (7 = count_bars
                (bar_separated_row (summary_no 1) kind sport dport data))
    in H.
  lia.
Qed.

(** C6, amended: every emitted row carries the eleven values in the
    fixed order frame number, time, protocol label, transport kind, info
    text, source address, source port, destination address, destination
    port, total length, payload.  Seven vertical bars separate eight
    columns; the transport kind stands in parentheses directly behind
    the protocol label, and each port stands behind its address after a
    colon.  The payload column is the lowercase hexadecimal encoding of
    the payload bytes, two digits per byte. *)
Theorem row_layout
    (Ether : bytes -> Packet) (pkt_sh : Summary.t) (pkt_sc : bytes)
    (fh fh' : list string) :
  render_csv_row Ether pkt_sh pkt_sc fh = Ok fh' ->
  exists kind sport dport data,
    l4_locals Ether pkt_sc
    = Ok {| l4_payload_bytes := data; l4_proto_name := kind;
            l4_sport := Some sport; l4_dport := Some dport |}
    /\ fh' = fh ++
         [Summary.no pkt_sh +:+ "|" +:+ Summary.time pkt_sh +:+ "|"
          +:+ Summary.protocol pkt_sh +:+ "(" +:+ kind +:+ ")" +:+ "|"
          +:+ Summary.info pkt_sh +:+ "|"
          +:+ Summary.source pkt_sh +:+ ":" +:+ str_N sport +:+ "|"
          +:+ Summary.destination pkt_sh +:+ ":" +:+ str_N dport +:+ "|"
          +:+ Summary.length pkt_sh +:+ "|" +:+ hex data]
    /\ string_forallb is_lower_hex (hex data) = true
    /\ String.length (hex data) = 2 * length data
    /\ unhex (hex data) = Some data.
Proof.
  intros H.
  destruct (l4_locals Ether pkt_sc) as [[data kind sp dp]|e] eqn:E.
  2:{ rewrite (render_csv_row_raise _ _ _ _ _ E) in H. discriminate. }
  rewrite (render_csv_row_locals _ _ _ _ _ E) in H. simpl in H.
  destruct sp as [sport|]; [|discriminate].
  destruct dp as [dport|]; [|discriminate].
  injection H as <-. exists kind, sport, dport, data.
  split; [reflexivity|]. split; [reflexivity|].
  split; [apply hex_is_lower|]. split; [|apply unhex_hex].
  clear. induction data as [|b data IH]; [reflexivity|].
  cbn [hex String.length length]. rewrite IH. lia.
Qed.

Lemma row_layout_witness :
  exists kind sport dport data,
    l4_locals dissect_Ether udp_frame
    = Ok {| l4_payload_bytes := data; l4_proto_name := kind;
            l4_sport := Some sport; l4_dport := Some dport |}
    /\ ["1|0.000000|DNS(UDP)|Standard query|10.0.0.1:5353|10.0.0.2:53|44|abcd"]
       = [] ++
         [Summary.no (summary_no 1) +:+ "|"
          +:+ Summary.time (summary_no 1) +:+ "|"
          +:+ Summary.protocol (summary_no 1) +:+ "(" +:+ kind +:+ ")"
          +:+ "|" +:+ Summary.info (summary_no 1) +:+ "|"
          +:+ Summary.source (summary_no 1) +:+ ":" +:+ str_N sport +:+ "|"
          +:+ Summary.destination (summary_no 1) +:+ ":" +:+ str_N dport
          +:+ "|" +:+ Summary.length (summary_no 1) +:+ "|" +:+ hex data]
    /\ string_forallb is_lower_hex (hex data) = true
    /\ String.length (hex data) = 2 * length data
    /\ unhex (hex data) = Some data.
Proof.
  apply (row_layout dissect_Ether (summary_no 1) udp_frame []
           ["1|0.000000|DNS(UDP)|Standard query|10.0.0.1:5353|10.0.0.2:53|44|abcd"]).
  reflexivity.
Defined.

(** ** TCP options *)

Lemma u8_app_l (a b : bytes) (i : nat) :
  i < length a -> u8 (a ++ b) i = u8 a i.
Proof. intros H. unfold u8. now rewrite lookup_app_l. Qed.

Lemma u16_app_l (a b : bytes) (i : nat) :
  S i < length a -> u16 (a ++ b) i = u16 a i.
Proof. intros H. unfold u16. rewrite !u8_app_l by lia. reflexivity. Qed.

(** A segment made of a fixed TCP header, the options its data offset
    announces and data is cut behind the options. *)
Lemma dissect_transport_tcp (tcph options data : bytes) (dataofs : nat) :
  length tcph = 20 ->
  (u8 tcph 12 / 16 = N.of_nat dataofs)%N ->
  5 <= dataofs ->
  length options = 4 * (dataofs - 5) ->
  dissect_transport 6 (tcph ++ options ++ data)
  = [LTCP (u16 tcph 0) (u16 tcph 2) (tcph ++ options); LRaw data].
Proof.
  intros Hh Hofs H5 Hopt. unfold dissect_transport.
  change (6 =? 17)%N with false. change (6 =? 6)%N with true. cbv iota.
  rewrite u8_app_l, Hofs, Nat2N.id by lia.
  rewrite !u16_app_l by lia.
  replace (20 <=? length (tcph ++ options ++ data))%nat with true
    by (symmetry; apply Nat.leb_le; rewrite length_app; lia).
  replace (5 <=? dataofs)%nat with true by (symmetry; apply Nat.leb_le; lia).
  replace (4 * dataofs <=? length (tcph ++ options ++ data))%nat with true
    by (symmetry; apply Nat.leb_le; rewrite !length_app; lia).
  cbv [andb]. rewrite app_assoc.
  rewrite take_app_length', drop_app_length' by (rewrite length_app; lia).
  reflexivity.
Qed.

Lemma dissect_network_ipv4 (iph seg : bytes) (ihl : nat) :
  length iph = 4 * ihl ->
  5 <= ihl ->
  (u8 iph 0 / 16 = 4)%N ->
  (u8 iph 0 mod 16 = N.of_nat ihl)%N ->
  dissect_network 2048 (iph ++ seg)
  = LIP (u8 iph 9) iph :: dissect_transport (u8 iph 9) seg.
Proof.
  intros Hlen H5 Hv Hihl. unfold dissect_network.
  change (2048 =? 2048)%N with true. cbv iota.
  rewrite !u8_app_l by lia. rewrite Hihl, Nat2N.id, Hv.
  replace (20 <=? length (iph ++ seg))%nat with true
    by (symmetry; apply Nat.leb_le; rewrite length_app; lia).
  replace (5 <=? ihl)%nat with true by (symmetry; apply Nat.leb_le; lia).
  replace (4 * ihl <=? length (iph ++ seg))%nat with true
    by (symmetry; apply Nat.leb_le; rewrite length_app; lia).
  change (4 =? 4)%N with true. cbv [andb].
  rewrite take_app_length', drop_app_length' by lia.
  reflexivity.
Qed.

Lemma dissect_Ether_frame (eth data : bytes) :
  length eth = 14 ->
  dissect_Ether (eth ++ data)
  = LEther eth :: dissect_network (u16 eth 12) data.
Proof.
  intros Hlen. unfold dissect_Ether.
  replace (14 <=? length (eth ++ data))%nat with true
    by (symmetry; apply Nat.leb_le; rewrite length_app; lia).
  rewrite u16_app_l by lia.
  rewrite take_app_length', drop_app_length' by lia.
  reflexivity.
Qed.

(** C7: for a frame made of an Ethernet header announcing IPv4, an IPv4
    header announcing TCP, a fixed TCP header whose data-offset nibble
    [dataofs] is more than 5, the [4 * (dataofs - 5)] option bytes it
    announces and then [data], the payload of the row is exactly [data]:
    the row ends in the hexadecimal encoding of [data] and of no option
    byte. *)
Theorem tcp_payload_skips_options
    (pkt_sh : Summary.t) (fh : list string)
    (eth iph tcph options data : bytes) (ihl dataofs : nat) :
  length eth = 14 ->
  u16 eth 12 = 2048%N ->
  length iph = 4 * ihl ->
  5 <= ihl ->
  (u8 iph 0 / 16 = 4)%N ->
  (u8 iph 0 mod 16 = N.of_nat ihl)%N ->
  u8 iph 9 = 6%N ->
  length tcph = 20 ->
  (u8 tcph 12 / 16 = N.of_nat dataofs)%N ->
  5 < dataofs ->
  length options = 4 * (dataofs - 5) ->
  l4_locals dissect_Ether (eth ++ iph ++ tcph ++ options ++ data)
  = Ok {| l4_payload_bytes := data; l4_proto_name := "TCP";
          l4_sport := Some (u16 tcph 0); l4_dport := Some (u16 tcph 2) |}
  /\ render_csv_row dissect_Ether pkt_sh
       (eth ++ iph ++ tcph ++ options ++ data) fh
     = Ok (fh ++ [row_text pkt_sh "TCP" (u16 tcph 0) (u16 tcph 2) data]).
Proof.
  intros He Het Hi Hihl Hv Hn Hp Ht Hofs Hd Hopt.
  assert (E : l4_locals dissect_Ether (eth ++ iph ++ tcph ++ options ++ data)
              = Ok {| l4_payload_bytes := data; l4_proto_name := "TCP";
                      l4_sport := Some (u16 tcph 0);
                      l4_dport := Some (u16 tcph 2) |}).
  { unfold l4_locals.
    rewrite (dissect_Ether_frame _ _ He), Het.
    rewrite (dissect_network_ipv4 _ _ ihl Hi Hihl Hv Hn), Hp.
    rewrite (dissect_transport_tcp _ _ _ dataofs Ht Hofs) by lia.
    rewrite getlayer_next, getlayer_here by (simpl; congruence).
    cbn [rbind fields_proto]. change (6 =? 17)%N with false.
    change (6 =? 6)%N with true. cbv iota.
    rewrite getlayer_next, getlayer_here by (simpl; congruence).
    cbn [rbind attr_sport attr_dport payload tail].
    unfold build. cbn [fmap list_fmap layer_bytes concat].
    now rewrite app_nil_r. }
  split; [exact E|].
  now rewrite (render_csv_row_locals _ _ _ _ _ E).
Qed.

Lemma tcp_payload_skips_options_witness :
  l4_locals dissect_Ether
    (eth_ipv4 ++ ipv4_header x06 ++ tcp_fixed_header
       ++ [x01; x01; x01; x01] ++ [xde; xad])
  = Ok {| l4_payload_bytes := [xde; xad]; l4_proto_name := "TCP";
          l4_sport := Some (u16 tcp_fixed_header 0);
          l4_dport := Some (u16 tcp_fixed_header 2) |}
  /\ render_csv_row dissect_Ether (summary_no 1)
       (eth_ipv4 ++ ipv4_header x06 ++ tcp_fixed_header
          ++ [x01; x01; x01; x01] ++ [xde; xad]) []
     = Ok ([] ++ [row_text (summary_no 1) "TCP" (u16 tcp_fixed_header 0)
                    (u16 tcp_fixed_header 2) [xde; xad]]).
Proof.
  apply (tcp_payload_skips_options (summary_no 1) [] eth_ipv4
           (ipv4_header x06) tcp_fixed_header [x01; x01; x01; x01]
           [xde; xad] 5 6); try reflexivity; lia.
Defined.

(** ** Provider over-production *)




(** ** The checks of [main] *)

Lemma os_path_exists_false files path :
  files !! path = None -> os_path_exists files path = false.
Proof.
  intros H. unfold os_path_exists. apply bool_decide_eq_false.
  rewrite H. intros [x Hx]. discriminate.
Qed.

Lemma os_path_exists_true files path :
  is_Some (files !! path) -> os_path_exists files path = true.
Proof. intros H. unfold os_path_exists. now apply bool_decide_eq_true. Qed.

(** C8: when the input path does not exist or the output path exists,
    [main] exits with a status other than 0 after one message on the
    error stream.  No packet is processed: nothing is printed on the
    output stream and the file system is left as it was, so a file that
    was at the output path is still there with its content. *)
Theorem main_refuses_bad_paths
    (Ether : bytes -> Packet) (args : Args) (w : World) :
  fs w !! pcap args = None \/ is_Some (fs w !! csv args) ->
  exists msg,
    main Ether args w
    = (Exited (-1),
       {| fs := fs w; stdout := stdout w; stderr := stderr w ++ [msg] |})
    /\ exit_status (Exited (-1)) <> 0%Z
    /\ (main Ether args w).2.(fs) !! csv args = fs w !! csv args.
Proof.
  intros H. unfold main.
  destruct (fs w !! pcap args) as [f|] eqn:Ein.
  - destruct H as [H|H]; [discriminate|].
    rewrite (os_path_exists_true (fs w) (pcap args)) by (rewrite Ein; eauto).
    rewrite (os_path_exists_true _ _ H). simpl.
    eexists. split; [reflexivity|]. split; [discriminate|reflexivity].
  - rewrite (os_path_exists_false _ _ Ein). simpl.
    eexists. split; [reflexivity|]. split; [discriminate|reflexivity].
Qed.

Lemma main_refuses_bad_paths_witness :
  exists msg,
    main dissect_Ether {| pcap := "in.pcap"; csv := "out.csv" |}
      taken_output_world
    = (Exited (-1),
       {| fs := fs taken_output_world;
          stdout := [];
          stderr := [] ++ [msg] |})
    /\ exit_status (Exited (-1)) <> 0%Z
    /\ (main dissect_Ether {| pcap := "in.pcap"; csv := "out.csv" |}
          taken_output_world).2.(fs) !! "out.csv"
       = fs taken_output_world !! "out.csv".
Proof.
  apply (main_refuses_bad_paths dissect_Ether
           {| pcap := "in.pcap"; csv := "out.csv" |} taken_output_world).
  right. vm_compute. eauto.
Defined.

(** ** An empty capture *)

(** C10: for an existing capture with no record and an output path that
    does not exist, [main] creates the output file with no row, prints
    that 0 packets were read and ends with status 0. *)
Theorem empty_capture_succeeds
    (Ether : bytes -> Packet) (args : Args) (w : World)
    (summaries : list Summary.t) :
  fs w !! pcap args = Some (Capture [] summaries) ->
  fs w !! csv args = None ->
  main Ether args w
  = (Returned,
     {| fs := <[csv args := Text []]> (fs w);
        stdout := stdout w ++ ["0 packets read"];
        stderr := stderr w |})
  /\ exit_status (main Ether args w).1 = 0%Z
  /\ lines_at (main Ether args w).2 (csv args) = Some [].
Proof.
  intros Hin Hout.
  assert (Hne : pcap args <> csv args) by congruence.
  assert (E : main Ether args w
              = (Returned,
                 {| fs := <[csv args := Text []]> (fs w);
                    stdout := stdout w ++ ["0 packets read"];
                    stderr := stderr w |})).
  { unfold main.
    rewrite (os_path_exists_true (fs w) (pcap args)) by (rewrite Hin; eauto).
    rewrite (os_path_exists_false _ _ Hout). simpl.
    now rewrite (pcap2csv_run Ether _ _ _ _ _ Returned (loop_start summaries)
                   Hin Hne eq_refl). }
  rewrite E. split; [reflexivity|]. split; [reflexivity|].
  unfold lines_at. simpl. now rewrite lookup_insert_eq.
Qed.

Lemma empty_capture_succeeds_witness :
  main dissect_Ether {| pcap := "in.pcap"; csv := "out.csv" |}
    (capture_world [] [])
  = (Returned,
     {| fs := <["out.csv" := Text []]> (fs (capture_world [] []));
        stdout := [] ++ ["0 packets read"];
        stderr := [] |})
  /\ exit_status
       (main dissect_Ether {| pcap := "in.pcap"; csv := "out.csv" |}
          (capture_world [] [])).1 = 0%Z
  /\ lines_at
       (main dissect_Ether {| pcap := "in.pcap"; csv := "out.csv" |}
          (capture_world [] [])).2 "out.csv" = Some [].
Proof.
  apply (empty_capture_succeeds dissect_Ether
           {| pcap := "in.pcap"; csv := "out.csv" |}
           (capture_world [] []) []).
  - reflexivity.
  - reflexivity.
Defined.

(** * Further properties of the script *)

(** ** [render_csv_row], whatever the dissector *)

Lemma getlayer_skip cls (pre rest : Packet) :
  Forall (fun l => layer_class l <> cls) pre ->
  getlayer cls (pre ++ rest) = getlayer cls rest.
Proof.
  induction 1 as [|l pre Hl _ IH]; [reflexivity|].
  cbn [app]. now rewrite getlayer_next.
Qed.

Lemma l4_locals_transport
    (Ether : bytes -> Packet) (pkt_sc : bytes) (outer inner rest : Packet)
    (proto : N) (iph : bytes) (cls : LayerClass) (l : Layer) (sp dp : N) :
  Ether pkt_sc = outer ++ LIP proto iph :: inner ++ l :: rest ->
  Forall (fun l => layer_class l <> IP) outer ->
  transport_class proto = Some cls ->
  Forall (fun l => layer_class l <> cls) inner ->
  layer_class l = cls ->
  layer_ports l = Some (sp, dp) ->
  l4_locals Ether pkt_sc
  = Ok {| l4_payload_bytes := build rest; l4_proto_name := kind_of cls;
          l4_sport := Some sp; l4_dport := Some dp |}.
Proof.
  intros HE Houter Hcls Hinner Hl Hports. unfold l4_locals.
  rewrite HE, (getlayer_skip _ _ _ Houter), getlayer_here by reflexivity.
  cbn [rbind fields_proto]. unfold transport_class in Hcls.
  assert (Hfind : getlayer cls (LIP proto iph :: inner ++ l :: rest)
                  = Ok (l :: rest)).
  { rewrite getlayer_next.
    - now rewrite (getlayer_skip _ _ _ Hinner), getlayer_here.
    - destruct (proto =? 17)%N; [|destruct (proto =? 6)%N];
        simpl; congruence. }
  destruct (proto =? 17)%N.
  - injection Hcls as <-. rewrite Hfind. cbn [rbind].
    destruct l; try discriminate. injection Hports as <- <-. reflexivity.
  - destruct (proto =? 6)%N; [|discriminate].
    injection Hcls as <-. rewrite Hfind. cbn [rbind].
    destruct l; try discriminate. injection Hports as <- <-. reflexivity.
Qed.

(** X1: [render_csv_row] writes a row exactly for the packets that are
    UDP or TCP over IPv4: an IPv4 layer saying protocol 17 that carries a
    UDP layer, or saying 6 and carrying a TCP layer.  Every other packet
    makes it raise. *)
Theorem render_succeeds_iff_udp_or_tcp
    (Ether : bytes -> Packet) (pkt_sh : Summary.t) (pkt_sc : bytes)
    (fh : list string) :
  (exists fh', render_csv_row Ether pkt_sh pkt_sc fh = Ok fh')
  <-> udp_or_tcp (Ether pkt_sc) = true.
Proof.
  split.
  - intros [fh' H]. unfold udp_or_tcp, has_layer.
    destruct (l4_locals Ether pkt_sc) as [locals|e] eqn:E.
    2:{ rewrite (render_csv_row_raise _ _ _ _ _ E) in H. discriminate. }
    rewrite (render_csv_row_locals _ _ _ _ _ E) in H.
    unfold l4_locals in E.
    destruct (getlayer IP (Ether pkt_sc)) as [ip|]; [|discriminate].
    cbn [rbind] in E.
    destruct (fields_proto ip) as [proto|]; [|discriminate].
    cbn [rbind] in E.
    destruct (proto =? 17)%N.
    + destruct (getlayer UDP ip); [reflexivity|discriminate].
    + destruct (proto =? 6)%N.
      * destruct (getlayer TCP ip); [reflexivity|discriminate].
      * injection E as <-. discriminate.
  - intros H.
    destruct (udp_or_tcp_renders Ether pkt_sh pkt_sc H)
      as (k & sp & dp & d & Hrow).
    eexists. apply Hrow.
Qed.

(** X2: a call of [render_csv_row] either appends exactly one line, the
    same whatever the file already holds and leaving those lines as they
    are, or raises an exception, the same whatever the file holds, that
    is never the provider's [StopIteration]. *)
Theorem render_appends_one_line_or_raises
    (Ether : bytes -> Packet) (pkt_sh : Summary.t) (pkt_sc : bytes) :
  (exists row, forall fh,
      render_csv_row Ether pkt_sh pkt_sc fh = Ok (fh ++ [row]))
  \/ (exists e, e <> StopIteration
               /\ forall fh, render_csv_row Ether pkt_sh pkt_sc fh = Raise e).
Proof.
  destruct (l4_locals Ether pkt_sc) as [locals|e] eqn:E.
  - destruct (l4_locals_ports _ _ _ E) as [(sp & dp & Hs & Hd)|(Hs & _)].
    + left. eexists. intros fh.
      rewrite (render_csv_row_locals _ _ _ _ _ E), Hs, Hd. reflexivity.
    + right. exists (UnboundLocalError "l4_sport").
      split; [discriminate|]. intros fh.
      now rewrite (render_csv_row_locals _ _ _ _ _ E), Hs.
  - right. exists e. split.
    + intros ->. exact (l4_locals_not_stop _ _ E).
    + intros fh. now apply render_csv_row_raise.
Qed.

(** X3: the UDP branch.  When the first IPv4 layer of the dissected
    packet says protocol 17, the row is built from the first UDP layer
    behind it: the kind is [UDP], the ports are that layer's, and the
    payload is the bytes of everything that layer carries. *)
Theorem udp_row
    (Ether : bytes -> Packet) (pkt_sh : Summary.t) (pkt_sc : bytes)
    (fh : list string) (outer inner rest : Packet) (iph udph : bytes)
    (sport dport : N) :
  Ether pkt_sc
  = outer ++ LIP 17 iph :: inner ++ LUDP sport dport udph :: rest ->
  Forall (fun l => layer_class l <> IP) outer ->
  Forall (fun l => layer_class l <> UDP) inner ->
  render_csv_row Ether pkt_sh pkt_sc fh
  = Ok (fh ++ [row_text pkt_sh "UDP" sport dport (build rest)]).
Proof.
  intros HE Houter Hinner.
  rewrite (render_csv_row_locals Ether pkt_sh pkt_sc fh
             {| l4_payload_bytes := build rest; l4_proto_name := "UDP";
                l4_sport := Some sport; l4_dport := Some dport |});
    [reflexivity|].
  exact (l4_locals_transport Ether pkt_sc outer inner rest 17 iph UDP
           (LUDP sport dport udph) sport dport HE Houter eq_refl Hinner
           eq_refl eq_refl).
Qed.

Lemma udp_row_witness :
  render_csv_row dissect_Ether (summary_no 1) udp_frame []
  = Ok ([] ++ [row_text (summary_no 1) "UDP" 5353 53
                 (build [LRaw [xab; xcd]])]).
Proof.
  apply (udp_row dissect_Ether (summary_no 1) udp_frame []
           [LEther eth_ipv4] [] [LRaw [xab; xcd]] (ipv4_header x11)
           [x14; xe9; x00; x35; x00; x0a; x00; x00] 5353 53).
  - reflexivity.
  - repeat constructor; discriminate.
  - constructor.
Defined.

(** X4: the TCP branch.  When the first IPv4 layer says protocol 6, the
    row is built from the first TCP layer behind it: the kind is [TCP],
    the ports are that layer's, and the payload is the bytes of
    everything that layer carries. *)
Theorem tcp_row
    (Ether : bytes -> Packet) (pkt_sh : Summary.t) (pkt_sc : bytes)
    (fh : list string) (outer inner rest : Packet) (iph tcph : bytes)
    (sport dport : N) :
  Ether pkt_sc
  = outer ++ LIP 6 iph :: inner ++ LTCP sport dport tcph :: rest ->
  Forall (fun l => layer_class l <> IP) outer ->
  Forall (fun l => layer_class l <> TCP) inner ->
  render_csv_row Ether pkt_sh pkt_sc fh
  = Ok (fh ++ [row_text pkt_sh "TCP" sport dport (build rest)]).
Proof.
  intros HE Houter Hinner.
  rewrite (render_csv_row_locals Ether pkt_sh pkt_sc fh
             {| l4_payload_bytes := build rest; l4_proto_name := "TCP";
                l4_sport := Some sport; l4_dport := Some dport |});
    [reflexivity|].
  exact (l4_locals_transport Ether pkt_sc outer inner rest 6 iph TCP
           (LTCP sport dport tcph) sport dport HE Houter eq_refl Hinner
           eq_refl eq_refl).
Qed.

Lemma tcp_row_witness :
  render_csv_row dissect_Ether (summary_no 1) tcp_options_frame []
  = Ok ([] ++ [row_text (summary_no 1) "TCP" 49152 80
                 (build [LRaw [xde; xad]])]).
Proof.
  apply (tcp_row dissect_Ether (summary_no 1) tcp_options_frame []
           [LEther eth_ipv4] [] [LRaw [xde; xad]] (ipv4_header x06)
           (tcp_fixed_header ++ [x01; x01; x01; x01]) 49152 80).
  - reflexivity.
  - repeat constructor; discriminate.
  - constructor.
Defined.

(** X5: an IPv4 layer that announces UDP or TCP without carrying a layer
    of that class (a packet cut short, say) makes the transport lookup
    raise [IndexError]: no row is written for it, and the error names the
    class that was looked up. *)
Theorem missing_transport_layer_raises
    (Ether : bytes -> Packet) (pkt_sh : Summary.t) (pkt_sc : bytes)
    (fh : list string) (outer inner : Packet) (proto : N) (iph : bytes)
    (cls : LayerClass) :
  Ether pkt_sc = outer ++ LIP proto iph :: inner ->
  Forall (fun l => layer_class l <> IP) outer ->
  transport_class proto = Some cls ->
  Forall (fun l => layer_class l <> cls) inner ->
  render_csv_row Ether pkt_sh pkt_sc fh
  = Raise (IndexError (class_name cls)).
Proof.
  intros HE Houter Hcls Hinner. apply render_csv_row_raise.
  unfold l4_locals.
  rewrite HE, (getlayer_skip _ _ _ Houter), getlayer_here by reflexivity.
  cbn [rbind fields_proto]. unfold transport_class in Hcls.
  assert (Hfind : getlayer cls (LIP proto iph :: inner)
                  = Raise (IndexError (class_name cls))).
  { rewrite getlayer_next.
    - rewrite <- (app_nil_r inner), (getlayer_skip _ _ _ Hinner).
      reflexivity.
    - destruct (proto =? 17)%N; [|destruct (proto =? 6)%N];
        simpl; congruence. }
  destruct (proto =? 17)%N.
  - injection Hcls as <-. now rewrite Hfind.
  - destruct (proto =? 6)%N; [|discriminate].
    injection Hcls as <-. now rewrite Hfind.
Qed.

Lemma missing_transport_layer_raises_witness :
  render_csv_row dissect_Ether (summary_no 1) short_udp_frame []
  = Raise (IndexError (class_name UDP)).
Proof.
  apply (missing_transport_layer_raises dissect_Ether (summary_no 1)
           short_udp_frame [] [LEther eth_ipv4]
           [LRaw [x14; xe9; x00; x35]] 17 (ipv4_header x11) UDP).
  - reflexivity.
  - repeat constructor; discriminate.
  - reflexivity.
  - repeat constructor; discriminate.
Defined.

(** ** The loop, whatever the records *)

Section RunFacts.

Variable Ether : bytes -> Packet.

(** The lines a loop writes are the rows of the first pairs, in
    order. *)
Lemma for_loop_rows (records : list bytes) :
  forall st,
    exists rows,
      fh_csv (for_loop Ether records st).2 = fh_csv st ++ rows
      /\ Forall2 (row_of Ether) rows
           (take (length rows) (zip (pcap_pyshark st) records)).
Proof.
  induction records as [|r records IH]; intros [fn cur fh];
    cbn [for_loop pcap_pyshark frame_num fh_csv next_packet].
  - exists []. cbn. rewrite app_nil_r. split; [reflexivity|constructor].
  - destruct cur as [|s cur]; cbn [next_packet].
    + exists []. cbn. rewrite app_nil_r. split; [reflexivity|constructor].
    + destruct (render_csv_row_cases Ether s r)
        as [(row & Hrow)|(e & He & Hraise)].
      * rewrite Hrow.
        destruct (IH {| frame_num := S fn; pcap_pyshark := cur;
                        fh_csv := fh ++ [row] |}) as (rows & Hfh & HR).
        cbn [fh_csv pcap_pyshark] in Hfh, HR.
        exists (row :: rows). rewrite Hfh, <- app_assoc.
        split; [reflexivity|]. cbn. constructor; [exact Hrow|exact HR].
      * rewrite Hraise. exists [].
        destruct e; try congruence; cbn; rewrite app_nil_r;
          (split; [reflexivity|constructor]).
Qed.

(** What the counter has counted when the loop is left. *)
Lemma for_loop_counter (records : list bytes) :
  forall st,
    let st' := (for_loop Ether records st).2 in
    frame_num st' + length (pcap_pyshark st')
    = frame_num st + length (pcap_pyshark st)
    /\ match (for_loop Ether records st).1 with
       | Returned =>
           frame_num st' + length (fh_csv st)
           = frame_num st + length (fh_csv st')
       | Uncaught _ =>
           frame_num st' + length (fh_csv st)
           = S (frame_num st + length (fh_csv st'))
       | Exited _ => False
       end.
Proof.
  induction records as [|r records IH]; intros [fn cur fh];
    cbn [for_loop pcap_pyshark frame_num fh_csv next_packet].
  - cbn. lia.
  - destruct cur as [|s cur]; cbn [next_packet].
    + cbn. lia.
    + destruct (render_csv_row_cases Ether s r)
        as [(row & Hrow)|(e & He & Hraise)].
      * rewrite Hrow.
        specialize (IH {| frame_num := S fn; pcap_pyshark := cur;
                          fh_csv := fh ++ [row] |}).
        cbn [fh_csv pcap_pyshark frame_num] in IH.
        destruct IH as [Hsum Hcnt]. split.
        -- cbn [length]. lia.
        -- rewrite length_app in Hcnt. cbn [length] in Hcnt.
           destruct (for_loop Ether records _).1; [lia|lia|exact Hcnt].
      * rewrite Hraise. destruct e; try congruence; cbn; lia.
Qed.

(** A run of [pcap2csv] leaves every path but [out_csv] and the error
    stream as they were, and prints at most one line. *)
Lemma pcap2csv_frame (in_pcap out_csv : string) (w : World) :
  let w' := (pcap2csv Ether in_pcap out_csv w).2 in
  (forall path, path <> out_csv -> fs w' !! path = fs w !! path)
  /\ stderr w' = stderr w
  /\ (stdout w' = stdout w \/ exists line, stdout w' = stdout w ++ [line]).
Proof.
  unfold pcap2csv.
  destruct (FileCapture (fs w) in_pcap) as [summaries|e]; [|cbn; auto].
  destruct (RawPcapReader _ in_pcap) as [records|e].
  - destruct (for_loop Ether records _) as [o st].
    destruct o; cbn; (split; [|split; eauto]);
      intros path Hp; now rewrite !lookup_insert_ne by congruence.
  - cbn. split; [|auto].
    intros path Hp. now rewrite lookup_insert_ne by congruence.
Qed.

End RunFacts.

(** X6: any exception [render_csv_row] raises for a record that is
    reached ends the run with that exception, uncaught.  The rows of the
    records before it stay in the file, no later record is rendered and
    no count is printed. *)
Theorem render_failure_ends_run
    (Ether : bytes -> Packet) (in_pcap out_csv : string) (w : World)
    (pre post : list bytes) (r : bytes) (summaries : list Summary.t)
    (s : Summary.t) (e : exn) :
  fs w !! in_pcap = Some (Capture (pre ++ r :: post) summaries) ->
  in_pcap <> out_csv ->
  Forall (fun r => udp_or_tcp (Ether r) = true) pre ->
  summaries !! length pre = Some s ->
  render_csv_row Ether s r [] = Raise e ->
  exists rows,
    pcap2csv Ether in_pcap out_csv w
    = (Uncaught e,
       {| fs := <[out_csv := Text rows]> (fs w);
          stdout := stdout w;
          stderr := stderr w |})
    /\ Forall2 (row_of Ether) rows (zip summaries pre)
    /\ length rows = length pre.
Proof.
  intros Hin Hne Hok Hs Hraise.
  pose proof (lookup_lt_Some _ _ _ Hs) as Hlt.
  destruct (for_loop_prefix Ether pre (r :: post) (loop_start summaries))
    as (rows & HR & Hloop); [simpl; lia|exact Hok|].
  simpl in HR, Hloop.
  rewrite (drop_S _ _ _ Hs) in Hloop.
  cbn [for_loop pcap_pyshark next_packet fh_csv] in Hloop.
  destruct (render_csv_row_cases Ether s r)
    as [(row & Hrow)|(e' & He' & Hall)].
  { rewrite Hrow in Hraise. discriminate. }
  assert (e' = e) as -> by (rewrite Hall in Hraise; congruence).
  rewrite Hall in Hloop.
  assert (Hloop' : for_loop Ether (pre ++ r :: post) (loop_start summaries)
                   = (Uncaught e,
                      {| frame_num := S (length pre);
                         pcap_pyshark := drop (S (length pre)) summaries;
                         fh_csv := rows |})).
  { rewrite Hloop. destruct e; congruence. }
  exists rows. split; [|split; [exact HR|]].
  - now rewrite (pcap2csv_run _ _ _ _ _ _ _ _ Hin Hne Hloop').
  - rewrite (Forall2_length _ _ _ HR), length_zip. lia.
Qed.

Lemma render_failure_ends_run_witness :
  exists rows,
    pcap2csv dissect_Ether "in.pcap" "out.csv"
      (capture_world ([udp_frame] ++ icmp_frame :: [udp_frame])
         [summary_no 1; summary_no 2; summary_no 3])
    = (Uncaught (UnboundLocalError "l4_sport"),
       {| fs := <["out.csv" := Text rows]>
                  (fs (capture_world ([udp_frame] ++ icmp_frame :: [udp_frame])
                         [summary_no 1; summary_no 2; summary_no 3]));
          stdout := [];
          stderr := [] |})
    /\ Forall2 (row_of dissect_Ether) rows
         (zip [summary_no 1; summary_no 2; summary_no 3] [udp_frame])
    /\ length rows = 1.
Proof.
  apply (render_failure_ends_run dissect_Ether "in.pcap" "out.csv"
           (capture_world ([udp_frame] ++ icmp_frame :: [udp_frame])
              [summary_no 1; summary_no 2; summary_no 3])
           [udp_frame] [udp_frame] icmp_frame
           [summary_no 1; summary_no 2; summary_no 3] (summary_no 2)
           (UnboundLocalError "l4_sport")).
  - reflexivity.
  - discriminate.
  - repeat constructor.
  - reflexivity.
  - reflexivity.
Defined.

(** X7: pairing is positional.  However a run on a capture ends, the
    lines in the output file are, in order, the rows of the first pairs
    of summary [i] with record [i]; there are never more rows than
    records or than summaries. *)
Theorem rows_are_positional
    (Ether : bytes -> Packet) (in_pcap out_csv : string) (w : World)
    (records : list bytes) (summaries : list Summary.t) :
  fs w !! in_pcap = Some (Capture records summaries) ->
  in_pcap <> out_csv ->
  exists rows,
    lines_at (pcap2csv Ether in_pcap out_csv w).2 out_csv = Some rows
    /\ Forall2 (row_of Ether) rows
         (take (length rows) (zip summaries records))
    /\ length rows <= length records
    /\ length rows <= length summaries.
Proof.
  intros Hin Hne.
  destruct (for_loop_rows Ether records (loop_start summaries))
    as (rows & Hfh & HR).
  cbn [loop_start fh_csv pcap_pyshark app] in Hfh, HR.
  destruct (for_loop Ether records (loop_start summaries)) as [o st] eqn:E.
  cbn [snd] in Hfh.
  exists rows. split; [|split; [exact HR|]].
  - rewrite (pcap2csv_run _ _ _ _ _ _ _ _ Hin Hne E). unfold lines_at.
    cbn [snd fs]. now rewrite lookup_insert_eq, Hfh.
  - apply Forall2_length in HR.
    rewrite length_take, length_zip in HR. lia.
Qed.

Lemma rows_are_positional_witness :
  exists rows,
    lines_at (pcap2csv dissect_Ether "in.pcap" "out.csv"
                (capture_world [udp_frame; arp_frame]
                   [summary_no 1; summary_no 2])).2 "out.csv" = Some rows
    /\ Forall2 (row_of dissect_Ether) rows
         (take (length rows)
            (zip [summary_no 1; summary_no 2] [udp_frame; arp_frame]))
    /\ length rows <= 2
    /\ length rows <= 2.
Proof.
  apply (rows_are_positional dissect_Ether "in.pcap" "out.csv"
           (capture_world [udp_frame; arp_frame]
              [summary_no 1; summary_no 2])
           [udp_frame; arp_frame] [summary_no 1; summary_no 2]).
  - reflexivity.
  - discriminate.
Defined.

(** X8: the counter counts the summaries taken from the provider, not
    the rows written.  Counter plus summaries left stays constant over
    the loop; a loop that ends quietly has counted exactly the rows it
    wrote, and a loop left by an exception has counted one more, the
    record that raised. *)
Theorem counter_counts_summaries_taken
    (Ether : bytes -> Packet) (records : list bytes) (st : LoopState) :
  let st' := (for_loop Ether records st).2 in
  frame_num st' + length (pcap_pyshark st')
  = frame_num st + length (pcap_pyshark st)
  /\ match (for_loop Ether records st).1 with
     | Returned =>
         frame_num st' + length (fh_csv st)
         = frame_num st + length (fh_csv st')
     | Uncaught _ =>
         frame_num st' + length (fh_csv st)
         = S (frame_num st + length (fh_csv st'))
     | Exited _ => False
     end.
Proof.
  pose proof (for_loop_counter Ether records st) as [Hsum Hcnt].
  split; [exact Hsum|].
  destruct (for_loop Ether records st).1; exact Hcnt.
Qed.

(** X9: [pcap2csv] touches one path only.  Whatever the arguments and
    however the run ends, every file at a path other than [out_csv] is
    as it was, nothing is written to the error stream, and at most one
    line is printed. *)
Theorem pcap2csv_touches_only_output
    (Ether : bytes -> Packet) (in_pcap out_csv path : string) (w : World) :
  path <> out_csv ->
  fs (pcap2csv Ether in_pcap out_csv w).2 !! path = fs w !! path
  /\ stderr (pcap2csv Ether in_pcap out_csv w).2 = stderr w
  /\ (stdout (pcap2csv Ether in_pcap out_csv w).2 = stdout w
      \/ exists line,
           stdout (pcap2csv Ether in_pcap out_csv w).2 = stdout w ++ [line]).
Proof.
  intros Hp.
  destruct (pcap2csv_frame Ether in_pcap out_csv w) as (Hfs & Herr & Hout).
  split; [exact (Hfs path Hp)|]. split; [exact Herr|exact Hout].
Qed.

Lemma pcap2csv_touches_only_output_witness :
  fs (pcap2csv dissect_Ether "in.pcap" "out.csv"
        (capture_world [udp_frame] [summary_no 1])).2 !! "in.pcap"
  = fs (capture_world [udp_frame] [summary_no 1]) !! "in.pcap"
  /\ stderr (pcap2csv dissect_Ether "in.pcap" "out.csv"
               (capture_world [udp_frame] [summary_no 1])).2
     = stderr (capture_world [udp_frame] [summary_no 1])
  /\ (stdout (pcap2csv dissect_Ether "in.pcap" "out.csv"
                (capture_world [udp_frame] [summary_no 1])).2
      = stdout (capture_world [udp_frame] [summary_no 1])
      \/ exists line,
           stdout (pcap2csv dissect_Ether "in.pcap" "out.csv"
                     (capture_world [udp_frame] [summary_no 1])).2
           = stdout (capture_world [udp_frame] [summary_no 1]) ++ [line]).
Proof.
  apply (pcap2csv_touches_only_output dissect_Ether "in.pcap" "out.csv"
           "in.pcap" (capture_world [udp_frame] [summary_no 1])).
  discriminate.
Defined.

(** ** [main] and the file system *)

(** X10: [main] never changes or removes a file that exists.  Whatever
    the arguments and however the run ends, every path that held a file
    before holds the same file after: the only thing [main] can do to
    the file system is create the output file. *)
Theorem main_preserves_existing_files
    (Ether : bytes -> Packet) (args : Args) (w : World)
    (path : string) (f : File) :
  fs w !! path = Some f ->
  fs (main Ether args w).2 !! path = Some f.
Proof.
  intros Hf. unfold main.
  destruct (os_path_exists (fs w) (pcap args)); cbn [negb];
    [|exact Hf].
  destruct (os_path_exists (fs w) (csv args)) eqn:Ecsv; [exact Hf|].
  assert (Hne : path <> csv args).
  { intros ->. unfold os_path_exists in Ecsv.
    apply bool_decide_eq_false in Ecsv. apply Ecsv. rewrite Hf. eauto. }
  destruct (pcap2csv_frame Ether (pcap args) (csv args) w) as (Hfs & _).
  now rewrite (Hfs path Hne).
Qed.

Lemma main_preserves_existing_files_witness :
  fs (main dissect_Ether {| pcap := "in.pcap"; csv := "out.csv" |}
        (capture_world [udp_frame] [summary_no 1])).2 !! "in.pcap"
  = Some (Capture [udp_frame] [summary_no 1]).
Proof.
  apply (main_preserves_existing_files dissect_Ether
           {| pcap := "in.pcap"; csv := "out.csv" |}
           (capture_world [udp_frame] [summary_no 1]) "in.pcap"
           (Capture [udp_frame] [summary_no 1])).
  reflexivity.
Defined.

(** X11: once both path checks pass on a capture, [main] is the run of
    [pcap2csv]: it never leaves through [sys.exit] and writes nothing to
    the error stream, the output file is created with the rows of the
    run, and the process status is 0 exactly when the count was printed
    and 1 when an exception ended the run. *)
Theorem main_on_good_paths
    (Ether : bytes -> Packet) (args : Args) (w : World)
    (records : list bytes) (summaries : list Summary.t) :
  fs w !! pcap args = Some (Capture records summaries) ->
  fs w !! csv args = None ->
  exists o rows,
    main Ether args w
    = (o, {| fs := <[csv args := Text rows]> (fs w);
             stdout := match o with
                       | Returned => stdout w ++ [packets_read (length rows)]
                       | _ => stdout w
                       end;
             stderr := stderr w |})
    /\ ((o = Returned /\ exit_status o = 0%Z)
        \/ (exists e, o = Uncaught e /\ exit_status o = 1%Z)).
Proof.
  intros Hin Hout.
  assert (Hne : pcap args <> csv args) by congruence.
  unfold main.
  rewrite (os_path_exists_true (fs w) (pcap args)) by (rewrite Hin; eauto).
  rewrite (os_path_exists_false _ _ Hout). cbn [negb].
  destruct (for_loop Ether records (loop_start summaries)) as [o st] eqn:E.
  destruct (for_loop_counts Ether records _ _ _ E)
    as (rows & Hfh & Hret & Hex).
  cbn [loop_start fh_csv frame_num app] in Hfh, Hret.
  exists o, rows.
  rewrite (pcap2csv_run _ _ _ _ _ _ _ _ Hin Hne E), Hfh. split.
  - destruct o; try reflexivity.
    destruct (Hret eq_refl) as [-> _]. reflexivity.
  - destruct o as [|e|code]; [left; auto|right; eauto|].
    now destruct (Hex code).
Qed.

Lemma main_on_good_paths_witness :
  exists o rows,
    main dissect_Ether {| pcap := "in.pcap"; csv := "out.csv" |}
      (capture_world [udp_frame; icmp_frame] [summary_no 1; summary_no 2])
    = (o, {| fs := <["out.csv" := Text rows]>
                     (fs (capture_world [udp_frame; icmp_frame]
                            [summary_no 1; summary_no 2]));
             stdout := match o with
                       | Returned => [] ++ [packets_read (length rows)]
                       | _ => []
                       end;
             stderr := [] |})
    /\ ((o = Returned /\ exit_status o = 0%Z)
        \/ (exists e, o = Uncaught e /\ exit_status o = 1%Z)).
Proof.
  apply (main_on_good_paths dissect_Ether
           {| pcap := "in.pcap"; csv := "out.csv" |}
           (capture_world [udp_frame; icmp_frame]
              [summary_no 1; summary_no 2])
           [udp_frame; icmp_frame] [summary_no 1; summary_no 2]).
  - reflexivity.
  - reflexivity.
Defined.

(** X15: why [main] insists on a fresh output path.  [pcap2csv] itself
    refuses nothing: called with the capture's own path as output it has
    loaded the summaries, then [open(out_csv, 'w')] empties the capture
    before the raw reader opens it, and the reader's refusal ends the
    run.  The capture is lost and no count is printed. *)
Theorem same_path_empties_the_capture
    (Ether : bytes -> Packet) (path : string) (w : World)
    (records : list bytes) (summaries : list Summary.t) :
  fs w !! path = Some (Capture records summaries) ->
  pcap2csv Ether path path w
  = (Uncaught CaptureFormatError,
     {| fs := <[path := Text []]> (fs w);
        stdout := stdout w;
        stderr := stderr w |})
  /\ lines_at (pcap2csv Ether path path w).2 path = Some [].
Proof.
  intros Hin.
  assert (E : pcap2csv Ether path path w
              = (Uncaught CaptureFormatError,
                 {| fs := <[path := Text []]> (fs w);
                    stdout := stdout w;
                    stderr := stderr w |})).
  { unfold pcap2csv, FileCapture, RawPcapReader.
    now rewrite Hin, lookup_insert_eq. }
  rewrite E. split; [reflexivity|].
  unfold lines_at. cbn [snd fs]. now rewrite lookup_insert_eq.
Qed.

Lemma same_path_empties_the_capture_witness :
  pcap2csv dissect_Ether "in.pcap" "in.pcap"
    (capture_world [udp_frame] [summary_no 1])
  = (Uncaught CaptureFormatError,
     {| fs := <["in.pcap" := Text []]>
                (fs (capture_world [udp_frame] [summary_no 1]));
        stdout := [];
        stderr := [] |})
  /\ lines_at (pcap2csv dissect_Ether "in.pcap" "in.pcap"
                 (capture_world [udp_frame] [summary_no 1])).2 "in.pcap"
     = Some [].
Proof.
  apply (same_path_empties_the_capture dissect_Ether "in.pcap"
           (capture_world [udp_frame] [summary_no 1])
           [udp_frame] [summary_no 1]).
  reflexivity.
Defined.

(** ** The text of a row *)

(** X12: the payload column determines the payload: two payloads have
    the same hexadecimal text only if they are the same bytes. *)
Theorem hex_injective (a b : bytes) : hex a = hex b <-> a = b.
Proof.
  split; [|now intros ->].
  intros H. apply (f_equal unhex) in H.
  rewrite !unhex_hex in H. now injection H.
Qed.

Lemma hex_inj (a b : bytes) : hex a = hex b -> a = b.
Proof.
  intros H. apply (f_equal unhex) in H.
  rewrite !unhex_hex in H. now injection H.
Qed.

Lemma str_N_injective (a b : N) : str_N a = str_N b -> a = b.
Proof.
  unfold str_N. intros H.
  assert (Hnn : forall n, N.to_uint n <> Decimal.Nil).
  { intros [|p]; [discriminate|]. apply DecimalPos.Unsigned.to_uint_nonnil. }
  apply (f_equal NilZero.uint_of_string) in H.
  rewrite !NilZero.usu in H by apply Hnn.
  injection H as H. now apply DecimalN.Unsigned.to_uint_inj.
Qed.

Lemma count_bars_digits (s : string) :
  string_forallb is_digit s = true -> count_bars s = 0.
Proof.
  induction s as [|c s IH]; [reflexivity|].
  cbn [string_forallb count_bars]. intros [Hc Hs]%andb_true_iff.
  rewrite (IH Hs). destruct (Ascii.eqb c "|") eqn:Ec; [|reflexivity].
  apply Ascii.eqb_eq in Ec. subst c. discriminate.
Qed.

Lemma count_bars_hex (bs : bytes) : count_bars (hex bs) = 0.
Proof.
  induction bs as [|b bs IH]; [reflexivity|].
  cbn [hex count_bars]. rewrite IH. destruct b; reflexivity.
Qed.

Lemma l4_locals_kind (Ether : bytes -> Packet) pkt_sc locals sport :
  l4_locals Ether pkt_sc = Ok locals ->
  l4_sport locals = Some sport ->
  l4_proto_name locals = "UDP" \/ l4_proto_name locals = "TCP".
Proof.
  unfold l4_locals.
  destruct (getlayer IP (Ether pkt_sc)) as [ip|]; [|discriminate].
  cbn [rbind]. destruct (fields_proto ip) as [proto|]; [|discriminate].
  cbn [rbind]. destruct (proto =? 17)%N.
  - destruct (getlayer UDP ip) as [u|]; [|discriminate]. cbn [rbind].
    destruct (attr_sport u); [|discriminate]. cbn [rbind].
    destruct (attr_dport u); [|discriminate]. cbn [rbind].
    intros [= <-] _. now left.
  - destruct (proto =? 6)%N.
    + destruct (getlayer TCP ip) as [u|]; [|discriminate]. cbn [rbind].
      destruct (attr_sport u); [|discriminate]. cbn [rbind].
      destruct (attr_dport u); [|discriminate]. cbn [rbind].
      intros [= <-] _. now right.
    + intros [= <-]. discriminate.
Qed.

(** X13: nothing is escaped.  An emitted row has the seven vertical
    bars of the format plus every bar that occurs in the seven texts
    taken from the summary; the transport kind, the ports and the
    payload never add one.  So a row splits into eight columns exactly
    when the summary's texts hold no bar. *)
Theorem row_bars_are_not_escaped
    (Ether : bytes -> Packet) (pkt_sh : Summary.t) (pkt_sc : bytes)
    (fh fh' : list string) :
  render_csv_row Ether pkt_sh pkt_sc fh = Ok fh' ->
  exists row,
    fh' = fh ++ [row]
    /\ count_bars row
       = 7 + count_bars (Summary.no pkt_sh)
         + count_bars (Summary.time pkt_sh)
         + count_bars (Summary.protocol pkt_sh)
         + count_bars (Summary.info pkt_sh)
         + count_bars (Summary.source pkt_sh)
         + count_bars (Summary.destination pkt_sh)
         + count_bars (Summary.length pkt_sh).
Proof.
  intros H.
  destruct (l4_locals Ether pkt_sc) as [[data kind sp dp]|e] eqn:E.
  2:{ rewrite (render_csv_row_raise _ _ _ _ _ E) in H. discriminate. }
  rewrite (render_csv_row_locals _ _ _ _ _ E) in H. cbn in H.
  destruct sp as [sport|]; [|discriminate].
  destruct dp as [dport|]; [|discriminate].
  injection H as <-. eexists. split; [reflexivity|].
  pose proof (l4_locals_kind Ether pkt_sc _ sport E eq_refl) as Hk.
  cbn in Hk. unfold row_text.
  repeat (rewrite count_bars_append;
          cbn [count_bars Ascii.eqb Bool.eqb]).
  rewrite !(count_bars_digits _ (str_N_digits _)), count_bars_hex.
  destruct Hk as [-> | ->]; cbn; lia.
Qed.

Lemma row_bars_are_not_escaped_witness :
  exists row,
    ["1|0.000000|DNS(UDP)|Standard query|10.0.0.1:5353|10.0.0.2:53|44|abcd"]
    = [] ++ [row]
    /\ count_bars row
       = 7 + count_bars (Summary.no (summary_no 1))
         + count_bars (Summary.time (summary_no 1))
         + count_bars (Summary.protocol (summary_no 1))
         + count_bars (Summary.info (summary_no 1))
         + count_bars (Summary.source (summary_no 1))
         + count_bars (Summary.destination (summary_no 1))
         + count_bars (Summary.length (summary_no 1)).
Proof.
  apply (row_bars_are_not_escaped dissect_Ether (summary_no 1) udp_frame []
           ["1|0.000000|DNS(UDP)|Standard query|10.0.0.1:5353|10.0.0.2:53|44|abcd"]).
  reflexivity.
Defined.

Lemma digits_then_bar_inj (a b r1 r2 : string) :
  string_forallb is_digit a = true ->
  string_forallb is_digit b = true ->
  a +:+ String "|" r1 = b +:+ String "|" r2 ->
  a = b /\ r1 = r2.
Proof.
  revert b. induction a as [|c a IH]; intros [|d b] Ha Hb H.
  - injection H as <-. auto.
  - change (String "|" r1 = String d (b +:+ String "|" r2)) in H.
    injection H as <- _. discriminate.
  - change (String c (a +:+ String "|" r1) = String "|" r2) in H.
    injection H as -> _. discriminate.
  - change (String c (a +:+ String "|" r1)
            = String d (b +:+ String "|" r2)) in H.
    injection H as -> H.
    cbn [string_forallb] in Ha, Hb.
    apply andb_true_iff in Ha as [_ Ha]. apply andb_true_iff in Hb as [_ Hb].
    destruct (IH b Ha Hb H) as [-> ->]. auto.
Qed.

Lemma row_text_inj
    (pkt_sh : Summary.t) (kind1 kind2 : string)
    (sport1 dport1 sport2 dport2 : N) (data1 data2 : bytes) :
  kind1 = "UDP" \/ kind1 = "TCP" ->
  kind2 = "UDP" \/ kind2 = "TCP" ->
  row_text pkt_sh kind1 sport1 dport1 data1
  = row_text pkt_sh kind2 sport2 dport2 data2 ->
  kind1 = kind2 /\ sport1 = sport2 /\ dport1 = dport2 /\ data1 = data2.
Proof.
  intros Hk1 Hk2 H. unfold row_text in H.
  do 6 apply String.app_inj in H.
  assert (Hk : kind1 = kind2).
  { destruct Hk1 as [-> | ->], Hk2 as [-> | ->];
      try reflexivity; discriminate H. }
  subst kind2. do 6 apply String.app_inj in H.
  apply digits_then_bar_inj in H as [Hs H]; try apply str_N_digits.
  do 2 apply String.app_inj in H.
  apply digits_then_bar_inj in H as [Hd H]; try apply str_N_digits.
  do 2 apply String.app_inj in H.
  apply str_N_injective in Hs, Hd. apply hex_inj in H.
  auto.
Qed.

(** X14: a row keeps the packet's own data readable.  When two packets
    rendered with the same summary give the same line, the transport
    kind, both ports and the payload bytes the script took from them
    are the same: decimal ports and hexadecimal payload are read back
    from the row without ambiguity. *)
Theorem row_determines_transport_data
    (Ether : bytes -> Packet) (pkt_sh : Summary.t) (pkt_sc1 pkt_sc2 : bytes)
    (row : string) :
  render_csv_row Ether pkt_sh pkt_sc1 [] = Ok [row] ->
  render_csv_row Ether pkt_sh pkt_sc2 [] = Ok [row] ->
  l4_locals Ether pkt_sc1 = l4_locals Ether pkt_sc2.
Proof.
  intros H1 H2.
  destruct (l4_locals Ether pkt_sc1) as [[d1 k1 sp1 dp1]|e] eqn:E1.
  2:{ rewrite (render_csv_row_raise _ _ _ _ _ E1) in H1. discriminate. }
  destruct (l4_locals Ether pkt_sc2) as [[d2 k2 sp2 dp2]|e] eqn:E2.
  2:{ rewrite (render_csv_row_raise _ _ _ _ _ E2) in H2. discriminate. }
  rewrite (render_csv_row_locals _ _ _ _ _ E1) in H1.
  rewrite (render_csv_row_locals _ _ _ _ _ E2) in H2.
  cbn in H1, H2.
  destruct sp1 as [s1|]; [|discriminate].
  destruct dp1 as [p1|]; [|discriminate].
  destruct sp2 as [s2|]; [|discriminate].
  destruct dp2 as [p2|]; [|discriminate].
  injection H1 as H1. injection H2 as H2.
  pose proof (l4_locals_kind Ether pkt_sc1 _ s1 E1 eq_refl) as Hk1.
  pose proof (l4_locals_kind Ether pkt_sc2 _ s2 E2 eq_refl) as Hk2.
  cbn in Hk1, Hk2.
  destruct (row_text_inj pkt_sh k1 k2 s1 p1 s2 p2 d1 d2 Hk1 Hk2)
    as (-> & -> & -> & ->); [congruence|reflexivity].
Qed.

Lemma row_determines_transport_data_witness :
  l4_locals dissect_Ether udp_frame
  = l4_locals dissect_Ether udp_frame_broadcast.
Proof.
  apply (row_determines_transport_data dissect_Ether (summary_no 1)
           udp_frame udp_frame_broadcast
           "1|0.000000|DNS(UDP)|Standard query|10.0.0.1:5353|10.0.0.2:53|44|abcd").
  - reflexivity.
  - reflexivity.
Defined.
